(** * home-tasks: the scheduling engine of [public/app.js]

    A shallow embedding of the recurrence engine of the chore tracker
    (cycle clock, occurrence index, due-date calculator, history store and
    task-state store) together with the properties its specification states.

    Modelling conventions.
    - A JavaScript [Date] is its time value: an integer number of
      milliseconds since 1970-01-01T00:00Z, in [Z].  All quantities the code
      divides are integers far below 2^53, for which [Math.floor (a / b)] on
      doubles is the floor of the exact quotient, written [a / b] on [Z].
    - [%] is JavaScript's remainder (sign of the dividend): [Z.rem].
    - Local time comes twice.  In [setHours0], [getDay] and [addDays] it
      is UTC shifted by a fixed offset [tzOffset], so that
      [setDate (getDate () + k)] moves a time value by [k] whole days.  In
      module [Wall] the same arithmetic is done on the wall clock of a
      [Zone], with the two conversions of ECMAScript and with clock
      changes; on a zone with one offset the two agree
      ([Wall_getNextScheduledDate_fixed]).  What depends on the length of a
      local day is stated on [Wall].
    - The clock ([new Date ()]) is an explicit argument [now]; the schedule
      and the stores, globals in the source, are explicit arguments too.
      [recordCompletionAt] takes the two readings of the clock of one call
      and the outcomes of its two requests to the remote store apart. *)

From Stdlib Require Import ZArith Lia.
From stdpp Require Import gmap strings list fin_maps sorting pretty.

Local Open Scope Z_scope.

(** ** Time values *)

Definition MS_PER_DAY : Z := 1000 * 60 * 60 * 24.
Definition MS_PER_WEEK : Z := 1000 * 60 * 60 * 24 * 7.

Definition CYCLE_LENGTH_WEEKS : Z := 12.

(** [new Date('2024-01-01')]: a date-only ISO string is UTC midnight.
    1 January 2024 is day 19723 of the epoch, a Monday. *)
Definition REFERENCE_DATE : Z := 19723 * MS_PER_DAY.

(** ** Cycle clock *)

(** [getCurrentWeekInCycle], with [new Date ()] passed as [now]. *)
Definition getCurrentWeekInCycle (now : Z) : Z :=
  let today := now in
  let diffTime := Z.abs (today - REFERENCE_DATE) in
  let diffWeeks := diffTime / MS_PER_WEEK in
  Z.rem diffWeeks CYCLE_LENGTH_WEEKS + 1.

(** The length of one cycle, twelve weeks of seven days, in milliseconds. *)
Definition CYCLE_MS : Z := 12 * 7 * MS_PER_DAY.

(** ** Schedule model *)

(** A task of [schedule.json]. *)
Module Task.
Record t := mk {
  name : string;
  location : string;
  minutes : option Z;
  how_often : string
}.
End Task.

(** A week of the rotation is a JavaScript object from day names to task
    arrays; [Object.keys] enumerates it in property order, so it is kept as
    an association list.  [twelve_week_schedule] is only ever indexed by
    key. *)
Definition Week : Type := list (string * list Task.t).

Record Schedule := {
  daily_tasks : list Task.t;
  twelve_week_schedule : gmap string Week
}.

(** An element of the array built by [findTaskOccurrences]:
    [{ type: 'daily', frequency }] or
    [{ type: 'weekly', week, dayName, dayOfWeek }]. *)
Inductive Occurrence :=
| Daily (frequency : string)
| Weekly (week : Z) (dayName : string) (dayOfWeek : Z).

(** The object [getNextScheduledDate] receives from the history view. *)
Module Item.
Record t := mk {
  name : string;
  howOften : string;
  lastCompleted : option Z
}.
End Item.

(** The object [getNextScheduledDate] returns. *)
Record NextScheduled := {
  text : string;
  overdue : bool
}.

(** ** History and task-state documents *)

(** A completion date is stored as the string [YYYY-MM-DD] cut from
    [toISOString ()].  Such a string is represented by the number of its
    day since 1970-01-01: [toISODate] is [toISOString ().split ('T')[0]]
    and [Date_ofISO] is [new Date (s)], UTC midnight of that day. *)
Definition toISODate (t : Z) : Z := t / MS_PER_DAY.
Definition Date_ofISO (day : Z) : Z := day * MS_PER_DAY.

Module Entry.
Record t := mk {
  location : string;
  lastCompleted : Z
}.
End Entry.

Record StateDoc := {
  date : string;
  tasks : gmap string bool
}.

(** ** Host environment *)

(** The three option sets the source passes to
    [toLocaleDateString ('en-GB', _)]. *)
Inductive DateFormat :=
| MonthDay        (* { month: 'short', day: 'numeric' } *)
| MonthDayYear    (* { month: 'short', day: 'numeric', year: 'numeric' } *)
| WeekdayLong.    (* { weekday: 'long' } *)

(** What the browser provides and the source only calls: the local time
    zone, date formatting and the JSON codec.  [JSON.parse] throws a
    [SyntaxError] on malformed text: [None].  The documents read back are
    the ones the application wrote, so a text that parses yields a history
    or a state document of the shape above. *)
Record Host := {
  tzOffset : Z;
  toLocaleDateString : DateFormat -> Z -> string;
  toDateString : Z -> string;
  JSON_stringify_history : gmap string Entry.t -> string;
  JSON_parse_history : string -> option (gmap string Entry.t);
  JSON_stringify_states : StateDoc -> string;
  JSON_parse_states : string -> option StateDoc
}.

(** ** Results of fallible calls *)

Inductive Error := SyntaxError | FirestoreError.

Inductive Result (A : Type) :=
| Ok (a : A)
| Throw (e : Error).
Arguments Ok {A} a.
Arguments Throw {A} e.

#[export] Instance Result_ret : MRet Result := fun _ a => Ok a.
#[export] Instance Result_bind : MBind Result := fun _ _ f r =>
  match r with
  | Ok a => f a
  | Throw e => Throw e
  end.

(** ** Stores *)

(** The remote document store.  [online = false] makes every request of the
    call at hand fail.  [taskHistory] is the document [taskHistory/shared],
    [taskStates] the collection of per-day documents. *)
Record Firestore := {
  online : bool;
  taskHistory : option (gmap string Entry.t);
  taskStates : gmap string StateDoc
}.

(** The global [db] ([null] when Firebase did not initialise), the browser's
    [localStorage], and the [.task-checkbox] elements of the page in
    document order, each with its [data-task-id] and [checked] flag. *)
Record World := {
  db : option Firestore;
  localStorage : gmap string string;
  checkboxes : list (string * bool)
}.

Definition STORAGE_KEY : string := "homeTasks".
Definition HISTORY_KEY : string := "taskHistory".

Definition set_taskHistory (h : gmap string Entry.t) (fs : Firestore) : Firestore :=
  {| online := online fs; taskHistory := Some h; taskStates := taskStates fs |}.

Definition set_taskState (key : string) (doc : StateDoc) (fs : Firestore) : Firestore :=
  {| online := online fs; taskHistory := taskHistory fs;
     taskStates := <[key := doc]> (taskStates fs) |}.

Definition with_db (fs : Firestore) (w : World) : World :=
  {| db := Some fs; localStorage := localStorage w; checkboxes := checkboxes w |}.

Definition with_localStorage (ls : gmap string string) (w : World) : World :=
  {| db := db w; localStorage := ls; checkboxes := checkboxes w |}.

Definition with_checkboxes (cbs : list (string * bool)) (w : World) : World :=
  {| db := db w; localStorage := localStorage w; checkboxes := cbs |}.

(** [localStorage.getItem (key)] followed by the truthiness test of the
    source: a missing item ([null]) and the empty string are both falsy. *)
Definition getItem (key : string) (w : World) : option string :=
  match localStorage w !! key with
  | Some s => if bool_decide (s = "") then None else Some s
  | None => None
  end.

(** ** Occurrence index *)

Definition daysOfWeek : list string :=
  ["Sunday"; "Monday"; "Tuesday"; "Wednesday"; "Thursday"; "Friday"; "Saturday"].

(** [Array.prototype.indexOf]: the first index, or -1. *)
Fixpoint indexOf (l : list string) (x : string) : Z :=
  match l with
  | [] => -1
  | y :: l' =>
      if bool_decide (y = x) then 0
      else let i := indexOf l' x in if i <? 0 then -1 else i + 1
  end.

(** [tasks.some (t => t.name === taskName)]. *)
Definition hasTask (taskName : string) (tasks : list Task.t) : bool :=
  existsb (fun t => bool_decide (Task.name t = taskName)) tasks.

Definition weekKey (weekNum : Z) : string := "week_" +:+ pretty weekNum.

(** The body of the loop over weeks: the occurrences pushed for one week. *)
Definition weekOccurrences (taskName : string) (weekNum : Z) (week : Week)
  : list Occurrence :=
  omap (fun '(dayName, tasks) =>
          let taskExists := hasTask taskName tasks in
          if taskExists
          then Some (Weekly weekNum dayName (indexOf daysOfWeek dayName))
          else None) week.

Definition findTaskOccurrences (schedule : option Schedule) (taskName : string)
  : list Occurrence :=
  match schedule with
  | None => []
  | Some schedule =>
      let isDailyTask := hasTask taskName (daily_tasks schedule) in
      if isDailyTask then [Daily "Daily"]
      else
        foldl (fun occurrences weekNum =>
                 match twelve_week_schedule schedule !! weekKey weekNum with
                 | Some week => occurrences ++ weekOccurrences taskName weekNum week
                 | None => occurrences
                 end) [] (seqZ 1 12)
  end.

(** ** Due-date calculator *)

(** [Math.round (a / b)] for positive integers: the quotient plus one half,
    floored.  (On doubles [a / b] is either exactly a half-integer or away
    from one by much more than a rounding error, so this is exact.) *)
Definition Math_round_div (a b : Z) : Z := (2 * a + b) / (2 * b).

Section Engine.
Context (host : Host).

(** [d.setHours (0, 0, 0, 0)]: local midnight of the day of [t]. *)
Definition setHours0 (t : Z) : Z := t - (t + tzOffset host) `mod` MS_PER_DAY.

(** [d.getDay ()]: the local weekday, 0 for Sunday.  Day 0 of the epoch
    was a Thursday. *)
Definition getDay (t : Z) : Z := ((t + tzOffset host) `div` MS_PER_DAY + 4) `mod` 7.

(** [d.setDate (d.getDate () + k)]. *)
Definition addDays (t k : Z) : Z := t + k * MS_PER_DAY.

(** The body of [occurrences.forEach]: the date pushed for [occ].  The
    loop only runs over weekly occurrences (see
    [findTaskOccurrences_kinds]); for a daily one [occ.week] would be
    [undefined]. *)
Definition nextOccurrence (today currentWeek : Z) (occ : Occurrence) : Z :=
  match occ with
  | Weekly week _ dayOfWeek =>
      let weeksUntil := Z.rem (week - currentWeek + 12) 12 in
      let checkDate := today in
      let checkDate := addDays checkDate (- getDay checkDate + dayOfWeek) in
      let checkDate := if bool_decide (checkDate <= today)
                       then addDays checkDate 7 else checkDate in
      let checkDate := if bool_decide (weeksUntil > 0)
                       then addDays checkDate (weeksUntil * 7) else checkDate in
      checkDate
  | Daily _ => today
  end.

(** [daysSinceCompletion] and [expectedFrequencyDays] of the source. *)
Definition daysSinceCompletion (today lastCompleted : Z) : Z :=
  let lastCompleted := setHours0 (Date_ofISO lastCompleted) in
  (today - lastCompleted) `div` MS_PER_DAY.

Definition expectedFrequencyDays (occurrences : list Occurrence) : Z :=
  Math_round_div (12 * 7) (Z.of_nat (length occurrences)).

(** The final [if] chain, formatting the result. *)
Definition formatNext (today nextDate : Z) (isOverdue : bool) : NextScheduled :=
  let diffTime := nextDate - today in
  let diffDays := diffTime `div` MS_PER_DAY in
  let dateStr := toLocaleDateString host MonthDayYear nextDate in
  if bool_decide (diffDays = 0) then
    {| text := "Due today"; overdue := isOverdue |}
  else if bool_decide (diffDays = 1) then
    {| text := "Tomorrow (" +:+ dateStr +:+ ")"; overdue := isOverdue |}
  else if bool_decide (diffDays <= 7) then
    let dayName := toLocaleDateString host WeekdayLong nextDate in
    {| text := dayName +:+ " (" +:+ dateStr +:+ ")"; overdue := isOverdue |}
  else
    {| text := dateStr; overdue := isOverdue |}.

(** The sorted array of candidate dates and its first element. *)
Definition nextOccurrences (now : Z) (occurrences : list Occurrence) : list Z :=
  let today := setHours0 now in
  let currentWeek := getCurrentWeekInCycle now in
  merge_sort Z.le (map (nextOccurrence today currentWeek) occurrences).

Definition getNextScheduledDate (schedule : option Schedule) (now : Z)
    (task : Item.t) : NextScheduled :=
  let today := setHours0 now in
  let occurrences := findTaskOccurrences schedule (Item.name task) in
  match occurrences with
  | [] =>
      match Item.lastCompleted task with
      | Some _ => {| text := "As needed"; overdue := false |}
      | None => {| text := "Not scheduled"; overdue := false |}
      end
  | Daily _ :: _ =>
      let nextDate := addDays today 1 in
      let dateStr := toLocaleDateString host MonthDay nextDate in
      {| text := "Tomorrow (" +:+ dateStr +:+ ")"; overdue := false |}
  | Weekly _ _ _ :: _ =>
      let nextDate := default today (head (nextOccurrences now occurrences)) in
      let isOverdue :=
        match Item.lastCompleted task with
        | Some lastCompleted =>
            bool_decide (daysSinceCompletion today lastCompleted
                         > expectedFrequencyDays occurrences + 3)
        | None => false
        end in
      formatNext today nextDate isOverdue
  end.

End Engine.

(** ** History store *)

Section Stores.
Context (host : Host).

(** [saved ? JSON.parse (saved) : {}] on the local copy of the history.
    The parse is not guarded: a [SyntaxError] leaves the function. *)
Definition localHistory (w : World) : Result (gmap string Entry.t) :=
  match getItem HISTORY_KEY w with
  | Some saved =>
      match JSON_parse_history host saved with
      | Some h => Ok h
      | None => Throw SyntaxError
      end
  | None => Ok ∅
  end.

Definition getTaskHistory (w : World) : Result (gmap string Entry.t) :=
  match db w with
  | Some fs =>
      if online fs then
        (* doc.exists ? doc.data () : {} *)
        Ok (default ∅ (taskHistory fs))
      else
        (* catch: fall back to localStorage *)
        localHistory w
  | None => localHistory w
  end.

(** The clean-up loop: an entry is deleted when
    [new Date (lastCompleted) < twelveWeeksAgo]. *)
Definition pruneHistory (twelveWeeksAgo : Z) (history : gmap string Entry.t)
  : gmap string Entry.t :=
  filter (fun kv => ~ (Date_ofISO (Entry.lastCompleted kv.2) < twelveWeeksAgo)) history.

(** The history object as it stands when it is written back. *)
Definition updatedHistory (now : Z) (taskName taskLocation : string)
    (history : gmap string Entry.t) : gmap string Entry.t :=
  let today := toISODate now in
  let history :=
    <[taskName := {| Entry.location := taskLocation; Entry.lastCompleted := today |}]>
      history in
  let twelveWeeksAgo := now - (12 * 7) * MS_PER_DAY in
  pruneHistory twelveWeeksAgo history.

(** The final write: to the remote document, or to [localStorage] when
    there is no [db] or the remote write fails. *)
Definition saveHistory (history : gmap string Entry.t) (w : World) : World :=
  match db w with
  | Some fs =>
      if online fs then with_db (set_taskHistory history fs) w
      else with_localStorage
             (<[HISTORY_KEY := JSON_stringify_history host history]> (localStorage w)) w
  | None =>
      with_localStorage
        (<[HISTORY_KEY := JSON_stringify_history host history]> (localStorage w)) w
  end.

(** [recordTaskCompletion].  Both readings of the clock in one call are
    the same instant [now]. *)
Definition recordTaskCompletion (now : Z) (taskName taskLocation : string)
    (w : World) : Result World :=
  history ← getTaskHistory w;
  mret (saveHistory (updatedHistory now taskName taskLocation history) w).

(** ** Task-state store *)

(** [document.querySelector] finds the first checkbox with the id;
    [checkbox.checked = v] then updates that one. *)
Fixpoint setChecked (taskId : string) (v : bool) (cbs : list (string * bool))
  : list (string * bool) :=
  match cbs with
  | [] => []
  | (i, c) :: cbs' =>
      if bool_decide (i = taskId) then (i, v) :: cbs'
      else (i, c) :: setChecked taskId v cbs'
  end.

(** [Object.keys (data.tasks).forEach (...)]. *)
Definition applyStates (data : StateDoc) (w : World) : World :=
  with_checkboxes
    (map_fold (fun taskId v cbs => setChecked taskId v cbs) (checkboxes w) (tasks data)) w.

(** The local branch of [loadTaskStates]; [clearStale] tells whether this
    copy of the branch removes a document of another day (only the copy
    taken when there is no [db] does). *)
Definition loadLocalStates (today : string) (clearStale : bool) (w : World) : World :=
  match getItem STORAGE_KEY w with
  | Some savedData =>
      match JSON_parse_states host savedData with
      | Some data =>
          if bool_decide (date data = today) then applyStates data w
          else if clearStale
               then with_localStorage (delete STORAGE_KEY (localStorage w)) w
               else w
      | None =>
          (* catch: the error is logged *)
          w
      end
  | None => w
  end.

Definition loadTaskStates (now : Z) (w : World) : Result World :=
  let today := toDateString host now in
  match db w with
  | Some fs =>
      if online fs then
        match taskStates fs !! today with
        | Some data => Ok (applyStates data w)
        | None => Ok w
        end
      else Ok (loadLocalStates today false w)
  | None => Ok (loadLocalStates today true w)
  end.

(** The object [taskStates] built from the checkboxes of the page. *)
Definition collectStates (cbs : list (string * bool)) : gmap string bool :=
  foldl (fun taskStates cb => <[cb.1 := cb.2]> taskStates) ∅ cbs.

(** [saveTaskStates].  The closing [renderHistoryView ()] only reads. *)
Definition saveTaskStates (now : Z) (w : World) : Result World :=
  let today := toDateString host now in
  let taskStates := collectStates (checkboxes w) in
  let data := {| date := today; tasks := taskStates |} in
  match db w with
  | Some fs =>
      if online fs then Ok (with_db (set_taskState today data fs) w)
      else Ok (with_localStorage
                 (<[STORAGE_KEY := JSON_stringify_states host data]> (localStorage w)) w)
  | None =>
      Ok (with_localStorage
            (<[STORAGE_KEY := JSON_stringify_states host data]> (localStorage w)) w)
  end.

End Stores.

(** ** A host to run the model on *)

(** Days since 1970-01-01 to year, month and day of the proleptic Gregorian
    calendar. *)
Definition civil_from_days (z : Z) : Z * Z * Z :=
  let z := z + 719468 in
  let era := z `div` 146097 in
  let doe := z - era * 146097 in
  let yoe := (doe - doe `div` 1460 + doe `div` 36524 - doe `div` 146096) `div` 365 in
  let doy := doe - (365 * yoe + yoe `div` 4 - yoe `div` 100) in
  let mp := (5 * doy + 2) `div` 153 in
  let d := doy - (153 * mp + 2) `div` 5 + 1 in
  let m := if mp <? 10 then mp + 3 else mp - 9 in
  let y := yoe + era * 400 in
  (if m <=? 2 then y + 1 else y, m, d).

Definition monthShort (m : Z) : string :=
  default "" (["Jan"; "Feb"; "Mar"; "Apr"; "May"; "Jun";
               "Jul"; "Aug"; "Sep"; "Oct"; "Nov"; "Dec"] !! Z.to_nat (m - 1)).

Definition weekdayLong (t : Z) : string :=
  default "" (daysOfWeek !! Z.to_nat ((t `div` MS_PER_DAY + 4) `mod` 7)).

(** [toLocaleDateString ('en-GB', _)] in a UTC time zone. *)
Definition en_GB (fmt : DateFormat) (t : Z) : string :=
  let '(y, m, d) := civil_from_days (t `div` MS_PER_DAY) in
  match fmt with
  | MonthDay => pretty d +:+ " " +:+ monthShort m
  | MonthDayYear => pretty d +:+ " " +:+ monthShort m +:+ " " +:+ pretty y
  | WeekdayLong => weekdayLong t
  end.

Definition pad2 (n : Z) : string :=
  if n <? 10 then "0" +:+ pretty n else pretty n.

(** [toDateString ()] in a UTC time zone, as in [Mon Jan 01 2024]. *)
Definition utcDateString (t : Z) : string :=
  let '(y, m, d) := civil_from_days (t `div` MS_PER_DAY) in
  String.substring 0 3 (weekdayLong t) +:+ " " +:+ monthShort m +:+ " "
    +:+ pad2 d +:+ " " +:+ pretty y.

(** A browser in a UTC time zone, to run the model on concrete inputs.
    Its JSON codec is a stub that knows the empty object only; the runs
    below never read back what they write and only need a text that does
    not parse. *)
Definition utcHost : Host := {|
  tzOffset := 0;
  toLocaleDateString := en_GB;
  toDateString := utcDateString;
  JSON_stringify_history := fun _ => "{}";
  JSON_parse_history := fun s => if bool_decide (s = "{}") then Some ∅ else None;
  JSON_stringify_states := fun _ => "{}";
  JSON_parse_states := fun s => None
|}.

(** The schedule of the end-to-end example: [Vacuum] on the Mondays of
    weeks 1 and 7, [Wipe counters] every day. *)
Definition vacuum : Task.t :=
  {| Task.name := "Vacuum"; Task.location := "Living Room";
     Task.minutes := Some 20; Task.how_often := "Every 6 weeks" |}.

Definition wipe_counters : Task.t :=
  {| Task.name := "Wipe counters"; Task.location := "Kitchen";
     Task.minutes := Some 5; Task.how_often := "Daily" |}.

Definition vacuumSchedule : Schedule := {|
  daily_tasks := [wipe_counters];
  twelve_week_schedule :=
    {[ "week_1" := [("Monday", [vacuum])]; "week_7" := [("Monday", [vacuum])] ]}
|}.

(** Noon UTC on Monday 1 January 2024, in cycle week 1. *)
Definition monday_week1 : Z := REFERENCE_DATE + 12 * 60 * 60 * 1000.

(** ** Notions used in the statements *)

(** The occurrences one week contributes. *)
Definition rotationWeek (schedule : Schedule) (taskName : string) (weekNum : Z)
  : list Occurrence :=
  match twelve_week_schedule schedule !! weekKey weekNum with
  | Some week => weekOccurrences taskName weekNum week
  | None => []
  end.

(** A name that no slot of the rotation carries. *)
Definition absentFromRotation (schedule : Schedule) (taskName : string) : Prop :=
  forall key week dayName tasks t,
    twelve_week_schedule schedule !! key = Some week ->
    (dayName, tasks) ∈ week -> t ∈ tasks -> Task.name t <> taskName.

(** A schedule in which a daily task is also entered in the rotation. *)
Definition collidingSchedule : Schedule := {|
  daily_tasks := [wipe_counters];
  twelve_week_schedule :=
    {[ "week_1" := [("Monday", [vacuum; wipe_counters])];
       "week_7" := [("Monday", [vacuum])] ]}
|}.

(** The invariant of the schedule model on day names: every key of a week
    is one of the seven names of [daysOfWeek]. *)
Definition canonicalDays (schedule : Schedule) : Prop :=
  forall key week dayName tasks,
    twelve_week_schedule schedule !! key = Some week ->
    (dayName, tasks) ∈ week -> dayName ∈ daysOfWeek.

(** [Vacuum] once per cycle. *)
Definition singleSchedule : Schedule := {|
  daily_tasks := [wipe_counters];
  twelve_week_schedule := {[ "week_1" := [("Monday", [vacuum])] ]}
|}.

(** A schedule whose day key is not one of the seven names. *)
Definition lowercaseSchedule : Schedule := {|
  daily_tasks := [];
  twelve_week_schedule := {[ "week_1" := [("monday", [vacuum])] ]}
|}.

(** Noon UTC on Saturday 6 January 2024, in cycle week 1. *)
Definition saturday_week1 : Z := REFERENCE_DATE + 5 * MS_PER_DAY + 12 * 60 * 60 * 1000.

(** The history-view items of the examples. *)
Definition vacuum_never : Item.t :=
  {| Item.name := "Vacuum"; Item.howOften := "Every 6 weeks"; Item.lastCompleted := None |}.

(** [Vacuum], last completed on 1 January 2024. *)
Definition vacuum_done_1_jan : Item.t :=
  {| Item.name := "Vacuum"; Item.howOften := "Every 12 weeks";
     Item.lastCompleted := Some 19723 |}.

(** Where a call leaves the history it wrote: in the remote document when
    the store answered, in [localStorage] otherwise. *)
Definition historyPersisted (host : Host) (w : World) (history : gmap string Entry.t)
  : Prop :=
  match db w with
  | Some fs =>
      if online fs then taskHistory fs = Some history
      else localStorage w !! HISTORY_KEY = Some (JSON_stringify_history host history)
  | None => localStorage w !! HISTORY_KEY = Some (JSON_stringify_history host history)
  end.

(** Likewise for the task states of the day [key]. *)
Definition statesPersisted (host : Host) (w : World) (key : string) (data : StateDoc)
  : Prop :=
  match db w with
  | Some fs =>
      if online fs then taskStates fs !! key = Some data
      else localStorage w !! STORAGE_KEY = Some (JSON_stringify_states host data)
  | None => localStorage w !! STORAGE_KEY = Some (JSON_stringify_states host data)
  end.

(** A store that answers, holding one completion of 1 January 2024. *)
Definition dust_1_jan : Entry.t :=
  {| Entry.location := "Bedroom"; Entry.lastCompleted := 19723 |}.

Definition dustWorld : World := {|
  db := Some {| online := true;
                taskHistory := Some {[ "Dust" := dust_1_jan ]};
                taskStates := ∅ |};
  localStorage := ∅;
  checkboxes := [("daily-0", true); ("focus-week1-Monday-0", false)]
|}.

(** Noon UTC on 25 March 2024, 84 days after 1 January. *)
Definition noon_25_mar : Z := Date_ofISO (19723 + 84) + 12 * 60 * 60 * 1000.

(** No remote store, and local copies that are not JSON. *)
Definition brokenWorld : World := {|
  db := None;
  localStorage := {[ HISTORY_KEY := "{not json"; STORAGE_KEY := "{not json" ]};
  checkboxes := [("daily-0", false)]
|}.

(** ** Today's view *)

(** [getCurrentDay]: [days[new Date ().getDay ()]], over the same array of
    names as [daysOfWeek].  An index out of the array would give
    [undefined], which the callers only use in a template and as a
    property key, where it reads [undefined]. *)
Definition getCurrentDay (host : Host) (now : Z) : string :=
  default "undefined" (daysOfWeek !! Z.to_nat (getDay host now)).

(** What [createTaskElement] builds: a checkbox, not checked, carrying
    [taskId], and the task it shows. *)
Record TaskElement := {
  taskId : string;
  shown : Task.t
}.

(** [task.minutes || 0]. *)
Definition minutesOf (task : Task.t) : Z := default 0 (Task.minutes task).

(** The running sum [total += task.minutes || 0] over an array. *)
Definition totalMinutes (tasks : list Task.t) : Z :=
  foldl (fun total task => total + minutesOf task) 0 tasks.

(** [week[day]] on a week object. *)
Definition propertyOf (week : Week) (day : string) : option (list Task.t) :=
  snd <$> find (fun kv => bool_decide (kv.1 = day)) week.

(** The content of the weekly list: the focus tasks with the two totals
    shown below them, or the paragraph saying there are none. *)
Inductive FocusList :=
| FocusTasks (elements : list TaskElement) (focusTotalMinutes grandTotal : Z)
| NoFocusTasks.

(** What [renderTodaysTasks] leaves on the page: nothing when no schedule
    is loaded; the daily list only when reading the week throws a
    [TypeError] (the property of an undefined week); both lists
    otherwise. *)
Inductive TodayRender :=
| NotRendered
| TypeErrorAfterDaily (dailyTasksList : list TaskElement) (dailyTotalMinutes : Z)
| Rendered (dailyTasksList : list TaskElement) (dailyTotalMinutes : Z)
    (weeklyTasksList : FocusList).

Definition renderTodaysTasks (host : Host) (schedule : option Schedule) (now : Z)
  : TodayRender :=
  match schedule with
  | None => NotRendered
  | Some schedule =>
      let currentDay := getCurrentDay host now in
      let weekNumber := getCurrentWeekInCycle now in
      let dailyTasksList :=
        imap (fun index task =>
                {| taskId := "daily-" +:+ pretty index; shown := task |})
             (daily_tasks schedule) in
      let dailyTotalMinutes := totalMinutes (daily_tasks schedule) in
      let weekKey := "week_" +:+ pretty weekNumber in
      match twelve_week_schedule schedule !! weekKey with
      | None => TypeErrorAfterDaily dailyTasksList dailyTotalMinutes
      | Some week =>
          match propertyOf week currentDay with
          | Some (task :: tasks) =>
              let todaysTasks := task :: tasks in
              let elements :=
                imap (fun index task =>
                        {| taskId := "focus-week" +:+ pretty weekNumber +:+ "-"
                                     +:+ currentDay +:+ "-" +:+ pretty index;
                           shown := task |}) todaysTasks in
              let focusTotalMinutes := totalMinutes todaysTasks in
              Rendered dailyTasksList dailyTotalMinutes
                (FocusTasks elements focusTotalMinutes
                   (dailyTotalMinutes + focusTotalMinutes))
          | _ => Rendered dailyTasksList dailyTotalMinutes NoFocusTasks
          end
      end
  end.

(** The [change] listener of a task checkbox; [checked] is the state the
    browser gave the checkbox before calling it.  Both steps of one event
    read the clock as [now]. *)
Definition onCheckboxChange (host : Host) (now : Z) (task : Task.t) (checked : bool)
    (w : World) : Result World :=
  if checked then
    w1 ← recordTaskCompletion host now (Task.name task) (Task.location task) w;
    saveTaskStates host now w1
  else saveTaskStates host now w.

(** ** History view elements *)

(** [diffDays] of [createHistoryTaskElement]: whole days between the
    instant [now] and UTC midnight of the recorded date, in absolute
    value. *)
Definition daysAgo (now lastCompleted : Z) : Z :=
  let lastDate := Date_ofISO lastCompleted in
  let today := now in
  let diffTime := Z.abs (today - lastDate) in
  diffTime `div` MS_PER_DAY.

Definition daysAgoText (diffDays : Z) : string :=
  if bool_decide (diffDays = 0) then "(Today)"
  else if bool_decide (diffDays = 1) then "(1 day ago)"
  else "(" +:+ pretty diffDays +:+ " days ago)".

(** The element [createHistoryTaskElement] returns: the name and frequency
    lines and, in order, the class and text of each line of the date
    block. *)
Record HistoryTaskElement := {
  taskName : string;
  taskFrequency : string;
  taskDate : list (string * string)
}.

Definition createHistoryTaskElement (host : Host) (schedule : option Schedule)
    (now : Z) (task : Item.t) : HistoryTaskElement :=
  {| taskName := Item.name task;
     taskFrequency := Item.howOften task;
     taskDate :=
       match Item.lastCompleted task with
       | Some lastCompleted =>
           let lastDate := Date_ofISO lastCompleted in
           let diffDays := daysAgo now lastCompleted in
           let nextScheduled := getNextScheduledDate host schedule now task in
           [("last-completed",
             "Last: " +:+ toLocaleDateString host MonthDayYear lastDate);
            ("days-ago", daysAgoText diffDays);
            (if overdue nextScheduled then "next-scheduled overdue" else "next-scheduled",
             "Next: " +:+ text nextScheduled)]
       | None =>
           let nextScheduled := getNextScheduledDate host schedule now task in
           [("never-completed", "Never completed");
            ("next-scheduled", "Next: " +:+ text nextScheduled)]
       end |}.

(** The object [renderHistoryView] pushes for a task of the schedule:
    [lastCompleted] is [history[name]?.lastCompleted || null]. *)
Definition historyItem (history : gmap string Entry.t) (name : string) (task : Task.t)
  : Item.t :=
  {| Item.name := name;
     Item.howOften := Task.how_often task;
     Item.lastCompleted := Entry.lastCompleted <$> history !! name |}.

(** ** The weekly view *)

(** The array [days] of [renderWeeklyView], Monday first. *)
Definition weekDays : list string :=
  ["Monday"; "Tuesday"; "Wednesday"; "Thursday"; "Friday"; "Saturday"; "Sunday"].

(** One day column after a round of the loop: whether [today] was added to
    its classes, the tasks shown under [Daily Tasks:] and under
    [Focus Tasks:] (none: the paragraph [No focus tasks]), and the total
    of minutes at the bottom. *)
Record DayColumn := {
  columnDay : string;
  markedToday : bool;
  columnDaily : list Task.t;
  columnFocus : list Task.t;
  columnTotal : Z
}.

(** What [renderWeeklyView] does: nothing without a schedule; with no
    entry for the current week the first round throws a [TypeError] after
    the daily tasks of Monday; the seven columns otherwise. *)
Inductive WeeklyRender :=
| WeekNotRendered
| WeekTypeError (mondayMarked : bool) (mondayDaily : list Task.t)
| WeekRendered (columns : list DayColumn).

Definition renderWeeklyView (host : Host) (schedule : option Schedule) (now : Z)
  : WeeklyRender :=
  match schedule with
  | None => WeekNotRendered
  | Some schedule =>
      let currentDay := getCurrentDay host now in
      let weekNumber := getCurrentWeekInCycle now in
      let weekKey := "week_" +:+ pretty weekNumber in
      match twelve_week_schedule schedule !! weekKey with
      | None =>
          WeekTypeError (bool_decide ("Monday" = currentDay)) (daily_tasks schedule)
      | Some week =>
          WeekRendered
            ((fun day =>
                let totalMinutes :=
                  foldl (fun total task => total + minutesOf task) 0
                        (daily_tasks schedule) in
                let dayTasks := default [] (propertyOf week day) in
                {| columnDay := day;
                   markedToday := bool_decide (day = currentDay);
                   columnDaily := daily_tasks schedule;
                   columnFocus := dayTasks;
                   columnTotal :=
                     foldl (fun total task => total + minutesOf task) totalMinutes
                           dayTasks |}) <$> weekDays)
      end
  end.

(** ** Remote updates of the task states *)

(** [document.querySelector] and the [checked] flag of what it finds. *)
Fixpoint checkedOf (taskId : string) (cbs : list (string * bool)) : option bool :=
  match cbs with
  | [] => None
  | (i, c) :: cbs' => if bool_decide (i = taskId) then Some c else checkedOf taskId cbs'
  end.

(** One round of the loop of the snapshot listener, on the checkboxes and
    the flag [hasUpdates]. *)
Definition snapshotStep (taskId : string) (v : bool) (st : list (string * bool) * bool)
  : list (string * bool) * bool :=
  match checkedOf taskId st.1 with
  | Some c => if bool_decide (c <> v) then (setChecked taskId v st.1, true) else st
  | None => st
  end.

(** The page, the listener's flag [isFirstSnapshot] and whether the toast
    [Tasks synced from partner] is shown. *)
Record SnapshotResult := {
  page : World;
  firstSnapshot : bool;
  toast : bool
}.

(** The listener on today's task-state document. *)
Definition onTaskStatesSnapshot (doc : option StateDoc) (isFirstSnapshot : bool)
    (w : World) : SnapshotResult :=
  match doc with
  | Some data =>
      let '(cbs, hasUpdates) := map_fold snapshotStep (checkboxes w, false) (tasks data) in
      {| page := with_checkboxes cbs w;
         firstSnapshot := false;
         toast := negb isFirstSnapshot && hasUpdates |}
  | None => {| page := w; firstSnapshot := isFirstSnapshot; toast := false |}
  end.

(** ** Notions used in the further statements *)

(** What [JSON.parse] must give back on the text [JSON.stringify] wrote for
    the reads of the local copies to see the writes. *)
Definition historyReadsBack (host : Host) (history : gmap string Entry.t) : Prop :=
  JSON_stringify_history host history <> ""
  /\ JSON_parse_history host (JSON_stringify_history host history) = Some history.

Definition statesReadBack (host : Host) (data : StateDoc) : Prop :=
  JSON_stringify_states host data <> ""
  /\ JSON_parse_states host (JSON_stringify_states host data) = Some data.

(** Whether the calls of this world reach the remote store. *)
Definition remote (w : World) : bool :=
  match db w with
  | Some fs => online fs
  | None => false
  end.

(** The checkboxes with the values of [tasks] written over them. *)
Definition overwritten (tasks : gmap string bool) (cbs : list (string * bool))
  : list (string * bool) :=
  (fun cb => (cb.1, default cb.2 (tasks !! cb.1))) <$> cbs.

(** A schedule with all twelve weeks. *)
Definition fullRotation (schedule : Schedule) : Prop :=
  forall weekNum, 1 <= weekNum <= 12 ->
    is_Some (twelve_week_schedule schedule !! weekKey weekNum).

(** The remote task-state document of the day [key], if any. *)
Definition stateDocOf (w : World) (key : string) : option StateDoc :=
  fs ← db w; taskStates fs !! key.

(** All task elements [renderTodaysTasks] has put on the page. *)
Definition renderedElements (r : TodayRender) : list TaskElement :=
  match r with
  | NotRendered => []
  | TypeErrorAfterDaily daily _ => daily
  | Rendered daily _ (FocusTasks elements _ _) => daily ++ elements
  | Rendered daily _ NoFocusTasks => daily
  end.

(** A browser that finds in its local copy a state document of the day
    before: the text of that document and what [JSON.parse] makes of it. *)
Definition dq : string := String (Ascii.ascii_of_nat 34) "".

Definition staleText : string :=
  "{" +:+ dq +:+ "date" +:+ dq +:+ ":" +:+ dq +:+ "Sun Dec 31 2023" +:+ dq +:+ ","
  +:+ dq +:+ "tasks" +:+ dq +:+ ":{" +:+ dq +:+ "daily-0" +:+ dq +:+ ":true}}".

Definition staleDoc : StateDoc :=
  {| date := "Sun Dec 31 2023"; tasks := {[ "daily-0" := true ]} |}.

Definition staleHost : Host := {|
  tzOffset := 0;
  toLocaleDateString := en_GB;
  toDateString := utcDateString;
  JSON_stringify_history := JSON_stringify_history utcHost;
  JSON_parse_history := JSON_parse_history utcHost;
  JSON_stringify_states := JSON_stringify_states utcHost;
  JSON_parse_states := fun s => if bool_decide (s = staleText) then Some staleDoc else None
|}.

Definition staleWorld : World := {|
  db := None;
  localStorage := {[ STORAGE_KEY := staleText ]};
  checkboxes := [("daily-0", false)]
|}.

(** A schedule with all twelve weeks, [Vacuum] on the Monday of each. *)
Definition weeklyVacuumSchedule : Schedule := {|
  daily_tasks := [wipe_counters];
  twelve_week_schedule :=
    list_to_map ((fun weekNum => (weekKey weekNum, [("Monday", [vacuum])])) <$> seqZ 1 12)
|}.

(** ** Local time with clock changes *)

(** The two conversions of ECMAScript between a time value and the wall
    clock of the time zone of the browser: [LocalTime (t)] is [t] plus the
    offset in force at the instant [t]; [UTC (l)] is the instant whose wall
    clock shows [l], a wall-clock time that is skipped or repeated by a
    clock change being read with the offset in force before the change. *)
Record Zone := {
  LocalTime : Z -> Z;
  UTC : Z -> Z
}.

(** A zone that keeps one offset all year. *)
Definition fixedZone (tz : Z) : Zone :=
  {| LocalTime := fun t => t + tz; UTC := fun l => l - tz |}.

Definition MS_PER_HOUR : Z := 1000 * 60 * 60.

(** The United Kingdom in 2024: summer time, one hour ahead, from
    31 March 01:00 UTC to 27 October 01:00 UTC.  The wall-clock hour from
    01:00 on 31 March does not exist and the one from 01:00 on 27 October
    comes twice. *)
Definition BST_START : Z := (19723 + 90) * MS_PER_DAY + MS_PER_HOUR.
Definition BST_END : Z := (19723 + 300) * MS_PER_DAY + MS_PER_HOUR.

Definition london2024 : Zone :=
  {| LocalTime := fun t =>
       if bool_decide (BST_START <= t < BST_END) then t + MS_PER_HOUR else t;
     UTC := fun l =>
       if bool_decide (BST_START + MS_PER_HOUR <= l < BST_END + MS_PER_HOUR)
       then l - MS_PER_HOUR else l |}.

(** What the statements below ask of a zone.  Reading a wall-clock time
    and looking at the clock at that instant gives the same time, or a
    later one of the same day when that time is skipped; doing so twice
    changes nothing more; and the calendar day never goes back as time
    goes on. *)
Record ZoneLaws (zone : Zone) : Prop := {
  wall_forward : forall l, l <= LocalTime zone (UTC zone l);
  wall_same_day :
    forall l, LocalTime zone (UTC zone l) `div` MS_PER_DAY = l `div` MS_PER_DAY;
  wall_settled : forall l, UTC zone (LocalTime zone (UTC zone l)) = UTC zone l;
  day_monotone :
    forall a b, a <= b ->
      LocalTime zone a `div` MS_PER_DAY <= LocalTime zone b `div` MS_PER_DAY
}.

(** Moving the wall clock by [k] moves the instant by [k], up to [drift]. *)
Definition driftBound (zone : Zone) (drift : Z) : Prop :=
  forall t k,
    t + k - drift <= UTC zone (LocalTime zone t + k) <= t + k + drift.

(** The date arithmetic of the source on the wall clock of a zone. *)
Module Wall.
Section Wall.
Context (zone : Zone) (host : Host).

(** [d.setHours (0, 0, 0, 0)]: the wall clock of [t] with its time of day
    set to zero, read back as an instant. *)
Definition setHours0 (t : Z) : Z :=
  UTC zone (LocalTime zone t `div` MS_PER_DAY * MS_PER_DAY).

(** [d.getDay ()]. *)
Definition getDay (t : Z) : Z := (LocalTime zone t `div` MS_PER_DAY + 4) `mod` 7.

(** [d.setDate (d.getDate () + k)]: the wall clock of [t] moved by [k]
    calendar days, time of day kept, read back as an instant. *)
Definition addDays (t k : Z) : Z := UTC zone (LocalTime zone t + k * MS_PER_DAY).

(** The body of [occurrences.forEach] in [getNextScheduledDate]. *)
Definition nextOccurrence (today currentWeek : Z) (occ : Occurrence) : Z :=
  match occ with
  | Weekly week _ dayOfWeek =>
      let weeksUntil := Z.rem (week - currentWeek + 12) 12 in
      let checkDate := today in
      let checkDate := addDays checkDate (- getDay checkDate + dayOfWeek) in
      let checkDate := if bool_decide (checkDate <= today)
                       then addDays checkDate 7 else checkDate in
      let checkDate := if bool_decide (weeksUntil > 0)
                       then addDays checkDate (weeksUntil * 7) else checkDate in
      checkDate
  | Daily _ => today
  end.

Definition daysSinceCompletion (today lastCompleted : Z) : Z :=
  let lastCompleted := setHours0 (Date_ofISO lastCompleted) in
  (today - lastCompleted) `div` MS_PER_DAY.

Definition nextOccurrences (now : Z) (occurrences : list Occurrence) : list Z :=
  let today := setHours0 now in
  let currentWeek := getCurrentWeekInCycle now in
  merge_sort Z.le (map (nextOccurrence today currentWeek) occurrences).

Definition getNextScheduledDate (schedule : option Schedule) (now : Z)
    (task : Item.t) : NextScheduled :=
  let today := setHours0 now in
  let occurrences := findTaskOccurrences schedule (Item.name task) in
  match occurrences with
  | [] =>
      match Item.lastCompleted task with
      | Some _ => {| text := "As needed"; overdue := false |}
      | None => {| text := "Not scheduled"; overdue := false |}
      end
  | Daily _ :: _ =>
      let nextDate := addDays today 1 in
      let dateStr := toLocaleDateString host MonthDay nextDate in
      {| text := "Tomorrow (" +:+ dateStr +:+ ")"; overdue := false |}
  | Weekly _ _ _ :: _ =>
      let nextDate := default today (head (nextOccurrences now occurrences)) in
      let isOverdue :=
        match Item.lastCompleted task with
        | Some lastCompleted =>
            bool_decide (daysSinceCompletion today lastCompleted
                         > expectedFrequencyDays occurrences + 3)
        | None => false
        end in
      formatNext host today nextDate isOverdue
  end.

(** The history object of [recordTaskCompletion] when it is written back.
    The clock is read twice: [now0] gives the date recorded, and [now1],
    read after the history has arrived, gives the cut-off of the clean-up,
    [setDate (getDate () - 12 * 7)] on the wall clock. *)
Definition updatedHistory (now0 now1 : Z) (taskName taskLocation : string)
    (history : gmap string Entry.t) : gmap string Entry.t :=
  let today := toISODate now0 in
  let history :=
    <[taskName := {| Entry.location := taskLocation; Entry.lastCompleted := today |}]>
      history in
  let twelveWeeksAgo := addDays now1 (- (12 * 7)) in
  pruneHistory twelveWeeksAgo history.

End Wall.
End Wall.

(** ** Requests that fail one by one *)

(** The world in which the remote request at hand is answered, or not. *)
Definition reach (answers : bool) (w : World) : World :=
  match db w with
  | Some fs =>
      with_db {| online := answers; taskHistory := taskHistory fs;
                 taskStates := taskStates fs |} w
  | None => w
  end.

(** [recordTaskCompletion] with its two readings of the clock and with the
    outcomes of its two remote requests, the read of the history and the
    write, each failing or not on its own. *)
Definition recordCompletionAt (zone : Zone) (host : Host) (now0 now1 : Z)
    (readAnswers writeAnswers : bool) (taskName taskLocation : string) (w : World)
  : Result World :=
  history ← getTaskHistory host (reach readAnswers w);
  mret (saveHistory host
          (Wall.updatedHistory zone now0 now1 taskName taskLocation history)
          (reach writeAnswers w)).

(** ** Keys that are safe in a selector *)

(** The listener and [loadTaskStates] put each key between double quotes
    in the selector given to [document.querySelector].  For a key of
    letters, digits, hyphens and underscores the selector is well formed
    and finds the first element whose [data-task-id] is the key. *)
Definition safeChar (c : Ascii.ascii) : bool :=
  let n := Z.of_nat (Ascii.nat_of_ascii c) in
  ((48 <=? n) && (n <=? 57)) || ((65 <=? n) && (n <=? 90))
  || ((97 <=? n) && (n <=? 122)) || (n =? 45) || (n =? 95).

Definition selectorSafe (key : string) : Prop :=
  forallb safeChar (String.list_ascii_of_string key) = true.

(** ** Further runs *)

(** Noon UTC on Sunday 31 March 2024, the day the clocks go forward. *)
Definition noon_31_mar : Z := (19723 + 90) * MS_PER_DAY + 12 * MS_PER_HOUR.

(** Five hours behind Greenwich all year, and 17:00 UTC, local noon, on
    28 March 2024, 87 days after 1 January. *)
Definition bogota : Zone := fixedZone (- (5 * MS_PER_HOUR)).
Definition noon_28_mar_bogota : Z := (19723 + 87) * MS_PER_DAY + 17 * MS_PER_HOUR.

(** [Vacuum], last completed on 11 January 2024, and noon UTC on 8 April
    2024, 88 days later. *)
Definition vacuum_done_11_jan : Item.t :=
  {| Item.name := "Vacuum"; Item.howOften := "Every 12 weeks";
     Item.lastCompleted := Some (19723 + 10) |}.
Definition noon_8_apr : Z := (19723 + 98) * MS_PER_DAY + 12 * MS_PER_HOUR.

(** 23:30 UTC on 1 April 2024, half past midnight of 2 April in London,
    and a completion of 9 January 2024, 83 days before 1 April. *)
Definition late_1_apr : Z := (19723 + 91) * MS_PER_DAY + 23 * MS_PER_HOUR + 30 * 60 * 1000.

Definition dust_9_jan : Entry.t :=
  {| Entry.location := "Bedroom"; Entry.lastCompleted := 19723 + 8 |}.

Definition dust9World : World := {|
  db := Some {| online := true;
                taskHistory := Some {[ "Dust" := dust_9_jan ]};
                taskStates := ∅ |};
  localStorage := ∅;
  checkboxes := [("daily-0", true); ("focus-week1-Monday-0", false)]
|}.
(** ** Properties of the cycle clock *)

Lemma MS_PER_WEEK_days : MS_PER_WEEK = 7 * MS_PER_DAY.
Proof. reflexivity. Qed.

Lemma MS_PER_DAY_pos : 0 < MS_PER_DAY.
Proof. reflexivity. Qed.

Lemma getCurrentWeekInCycle_range now :
  1 <= getCurrentWeekInCycle now <= 12.
Proof.
  unfold getCurrentWeekInCycle, CYCLE_LENGTH_WEEKS; cbv zeta.
  assert (0 <= Z.abs (now - REFERENCE_DATE) / MS_PER_WEEK)
    by (apply Z.div_pos; [lia | reflexivity]).
  rewrite Z.rem_mod_nonneg by lia.
  pose proof (Z.mod_pos_bound (Z.abs (now - REFERENCE_DATE) / MS_PER_WEEK) 12).
  lia.
Qed.

(** Moving the elapsed time by one whole cycle leaves the week unchanged. *)
Lemma week_of_elapsed_shift (x : Z) :
  0 <= x ->
  Z.rem ((x + CYCLE_MS) / MS_PER_WEEK) CYCLE_LENGTH_WEEKS
  = Z.rem (x / MS_PER_WEEK) CYCLE_LENGTH_WEEKS.
Proof.
  intros Hx.
  replace (x + CYCLE_MS) with (x + 12 * MS_PER_WEEK) by reflexivity.
  rewrite Z.div_add by discriminate.
  assert (0 <= x / MS_PER_WEEK) by (apply Z.div_pos; [lia | reflexivity]).
  unfold CYCLE_LENGTH_WEEKS.
  rewrite !Z.rem_mod_nonneg by lia.
  replace (x / MS_PER_WEEK + 12) with (x / MS_PER_WEEK + 1 * 12) by lia.
  apply Z.mod_add. discriminate.
Qed.

Lemma getCurrentWeekInCycle_shift_after d :
  REFERENCE_DATE <= d ->
  getCurrentWeekInCycle (d + CYCLE_MS) = getCurrentWeekInCycle d.
Proof.
  intros Hd. unfold getCurrentWeekInCycle; cbv zeta.
  assert (0 <= CYCLE_MS) by discriminate.
  rewrite !Z.abs_eq by lia.
  replace (d + CYCLE_MS - REFERENCE_DATE) with (d - REFERENCE_DATE + CYCLE_MS) by lia.
  rewrite week_of_elapsed_shift by lia. reflexivity.
Qed.

Lemma getCurrentWeekInCycle_shift_before d :
  d <= REFERENCE_DATE ->
  getCurrentWeekInCycle (d - CYCLE_MS) = getCurrentWeekInCycle d.
Proof.
  intros Hd. unfold getCurrentWeekInCycle; cbv zeta.
  assert (0 <= CYCLE_MS) by discriminate.
  rewrite !Z.abs_neq by lia.
  replace (- (d - CYCLE_MS - REFERENCE_DATE)) with (- (d - REFERENCE_DATE) + CYCLE_MS) by lia.
  rewrite week_of_elapsed_shift by lia. reflexivity.
Qed.

(** The absolute value mirrors the clock around the reference date. *)
Lemma getCurrentWeekInCycle_mirror x :
  getCurrentWeekInCycle (REFERENCE_DATE + x) = getCurrentWeekInCycle (REFERENCE_DATE - x).
Proof.
  unfold getCurrentWeekInCycle; cbv zeta.
  replace (REFERENCE_DATE + x - REFERENCE_DATE) with x by lia.
  replace (REFERENCE_DATE - x - REFERENCE_DATE) with (- x) by lia.
  rewrite Z.abs_opp. reflexivity.
Qed.

Example getCurrentWeekInCycle_reference : getCurrentWeekInCycle REFERENCE_DATE = 1.
Proof. reflexivity. Qed.

(** C2, as stated, fails: one day after the reference date is in week 1,
    but 84 days earlier (83 days before the reference) is in week 12. *)
Lemma C2_periodicity_fails_across_reference :
  ~ (forall d : Z,
        getCurrentWeekInCycle d = getCurrentWeekInCycle (d + 84 * MS_PER_DAY)
        /\ getCurrentWeekInCycle d = getCurrentWeekInCycle (d - 84 * MS_PER_DAY)).
Proof.
  intros H. destruct (H (REFERENCE_DATE + MS_PER_DAY)) as [_ Hminus].
  vm_compute in Hminus. discriminate.
Qed.

(** C2, amended: the cycle week is periodic with period 84 days as long as
    the shift does not cross the reference date, that is for [d] and
    [d + 84 days] (respectively [d - 84 days]) both at or after the
    reference, or both at or before it. *)
Theorem C2_periodicity_same_side (d : Z) :
  (REFERENCE_DATE <= d \/ d + 84 * MS_PER_DAY <= REFERENCE_DATE ->
   getCurrentWeekInCycle d = getCurrentWeekInCycle (d + 84 * MS_PER_DAY))
  /\ (REFERENCE_DATE <= d - 84 * MS_PER_DAY \/ d <= REFERENCE_DATE ->
      getCurrentWeekInCycle d = getCurrentWeekInCycle (d - 84 * MS_PER_DAY)).
Proof.
  change (84 * MS_PER_DAY) with CYCLE_MS.
  split; intros [H | H].
  - symmetry. by apply getCurrentWeekInCycle_shift_after.
  - rewrite <- (getCurrentWeekInCycle_shift_before (d + CYCLE_MS)) by lia.
    f_equal. lia.
  - rewrite <- (getCurrentWeekInCycle_shift_after (d - CYCLE_MS)) by lia.
    f_equal. lia.
  - symmetry. by apply getCurrentWeekInCycle_shift_before.
Qed.

Lemma C2_periodicity_same_side_witness :
  getCurrentWeekInCycle (REFERENCE_DATE + 100 * MS_PER_DAY)
  = getCurrentWeekInCycle (REFERENCE_DATE + 100 * MS_PER_DAY + 84 * MS_PER_DAY)
  /\ getCurrentWeekInCycle (REFERENCE_DATE + 100 * MS_PER_DAY)
     = getCurrentWeekInCycle (REFERENCE_DATE + 100 * MS_PER_DAY - 84 * MS_PER_DAY).
Proof.
  destruct (C2_periodicity_same_side (REFERENCE_DATE + 100 * MS_PER_DAY)) as [Hp Hm].
  split; [apply Hp | apply Hm]; left; vm_compute; discriminate.
Defined.

(** ** Properties of the occurrence index *)

Lemma hasTask_true taskName tasks :
  hasTask taskName tasks = true <-> exists t, t ∈ tasks /\ Task.name t = taskName.
Proof.
  unfold hasTask. rewrite existsb_exists. split.
  - intros (t & Hin & Heq). exists t. split; [by apply list_elem_of_In |].
    by apply bool_decide_eq_true in Heq.
  - intros (t & Hin & Heq). exists t. split; [by apply list_elem_of_In |].
    by apply bool_decide_eq_true.
Qed.

Lemma hasTask_false taskName tasks :
  hasTask taskName tasks = false <-> forall t, t ∈ tasks -> Task.name t <> taskName.
Proof.
  rewrite <- not_true_iff_false, hasTask_true. split.
  - intros Hno t Hin Heq. apply Hno. eauto.
  - intros Hall (t & Hin & Heq). by apply (Hall t).
Qed.

Lemma rotation_loop schedule taskName (weeks : list Z) (acc : list Occurrence) :
  foldl (fun occurrences weekNum =>
           match twelve_week_schedule schedule !! weekKey weekNum with
           | Some week => occurrences ++ weekOccurrences taskName weekNum week
           | None => occurrences
           end) acc weeks
  = acc ++ (weeks ≫= rotationWeek schedule taskName).
Proof.
  revert acc. induction weeks as [| w weeks IH]; intros acc; simpl.
  - by rewrite app_nil_r.
  - rewrite IH. unfold rotationWeek at 2.
    destruct (twelve_week_schedule schedule !! weekKey w); simpl.
    + by rewrite app_assoc.
    + done.
Qed.

Lemma findTaskOccurrences_daily schedule taskName :
  hasTask taskName (daily_tasks schedule) = true ->
  findTaskOccurrences (Some schedule) taskName = [Daily "Daily"].
Proof. intros H. unfold findTaskOccurrences. by rewrite H. Qed.

Lemma findTaskOccurrences_rotation schedule taskName :
  hasTask taskName (daily_tasks schedule) = false ->
  findTaskOccurrences (Some schedule) taskName
  = seqZ 1 12 ≫= rotationWeek schedule taskName.
Proof.
  intros H. unfold findTaskOccurrences. rewrite H; cbv zeta.
  by rewrite rotation_loop.
Qed.

Lemma elem_of_weekOccurrences taskName weekNum week occ :
  occ ∈ weekOccurrences taskName weekNum week <->
  exists dayName tasks,
    (dayName, tasks) ∈ week
    /\ (exists t, t ∈ tasks /\ Task.name t = taskName)
    /\ occ = Weekly weekNum dayName (indexOf daysOfWeek dayName).
Proof.
  unfold weekOccurrences. rewrite list_elem_of_omap. split.
  - intros ([dayName tasks] & Hin & Hf). cbv beta iota zeta in Hf.
    destruct (hasTask taskName tasks) eqn:Hex; [| done].
    injection Hf as <-. exists dayName, tasks. split; [done |].
    split; [by apply hasTask_true | done].
  - intros (dayName & tasks & Hin & Hex & ->).
    exists (dayName, tasks). split; [done |]. cbv beta iota zeta.
    apply hasTask_true in Hex. by rewrite Hex.
Qed.

Lemma elem_of_rotation schedule taskName occ :
  hasTask taskName (daily_tasks schedule) = false ->
  occ ∈ findTaskOccurrences (Some schedule) taskName <->
  exists weekNum week dayName tasks,
    1 <= weekNum <= 12
    /\ twelve_week_schedule schedule !! weekKey weekNum = Some week
    /\ (dayName, tasks) ∈ week
    /\ (exists t, t ∈ tasks /\ Task.name t = taskName)
    /\ occ = Weekly weekNum dayName (indexOf daysOfWeek dayName).
Proof.
  intros Hnd. rewrite findTaskOccurrences_rotation by done.
  rewrite list_elem_of_bind. split.
  - intros (w & Hocc & Hw). apply elem_of_seqZ in Hw. unfold rotationWeek in Hocc.
    destruct (twelve_week_schedule schedule !! weekKey w) as [week |] eqn:Hweek.
    + apply elem_of_weekOccurrences in Hocc as (d & ts & Hin & Hex & ->).
      exists w, week, d, ts. repeat split; try done; lia.
    + by apply elem_of_nil in Hocc.
  - intros (w & week & d & ts & Hw & Hweek & Hin & Hex & ->).
    exists w. split; [| apply elem_of_seqZ; lia].
    unfold rotationWeek. rewrite Hweek. apply elem_of_weekOccurrences. eauto.
Qed.


Lemma findTaskOccurrences_absent schedule taskName :
  (forall t, t ∈ daily_tasks schedule -> Task.name t <> taskName) ->
  absentFromRotation schedule taskName ->
  findTaskOccurrences (Some schedule) taskName = [].
Proof.
  intros Hd Hr. apply hasTask_false in Hd.
  destruct (findTaskOccurrences (Some schedule) taskName) as [| occ occs] eqn:E; [done |].
  assert (Hocc : occ ∈ findTaskOccurrences (Some schedule) taskName)
    by (rewrite E; apply list_elem_of_here).
  apply elem_of_rotation in Hocc; [| done].
  destruct Hocc as (w & week & d & ts & _ & Hweek & Hin & (t & Ht & Hname) & _).
  by destruct (Hr _ _ _ _ _ Hweek Hin Ht).
Qed.

(** C5: a name in [daily_tasks] yields exactly the one daily occurrence,
    whatever the rotation holds under that name; a name absent from both
    [daily_tasks] and the rotation yields the empty array; and for a name
    that is not daily an occurrence is reported exactly for the slots of
    weeks 1 to 12 holding a task whose name equals it. *)
Theorem C5_findTaskOccurrences (schedule : Schedule) (taskName : string) :
  ((exists t, t ∈ daily_tasks schedule /\ Task.name t = taskName) ->
   findTaskOccurrences (Some schedule) taskName = [Daily "Daily"])
  /\ ((forall t, t ∈ daily_tasks schedule -> Task.name t <> taskName) ->
      absentFromRotation schedule taskName ->
      findTaskOccurrences (Some schedule) taskName = [])
  /\ ((forall t, t ∈ daily_tasks schedule -> Task.name t <> taskName) ->
      forall occ,
        occ ∈ findTaskOccurrences (Some schedule) taskName <->
        exists weekNum week dayName tasks,
          1 <= weekNum <= 12
          /\ twelve_week_schedule schedule !! weekKey weekNum = Some week
          /\ (dayName, tasks) ∈ week
          /\ (exists t, t ∈ tasks /\ Task.name t = taskName)
          /\ occ = Weekly weekNum dayName (indexOf daysOfWeek dayName)).
Proof.
  split; [| split].
  - intros Hd. apply findTaskOccurrences_daily. by apply hasTask_true.
  - apply findTaskOccurrences_absent.
  - intros Hd occ. apply elem_of_rotation. by apply hasTask_false.
Qed.

Lemma collidingSchedule_no_dust : absentFromRotation collidingSchedule "Dust".
Proof.
  intros key week dayName tasks t Hkey Hin Ht.
  unfold collidingSchedule in Hkey; simpl in Hkey.
  apply lookup_insert_Some in Hkey as [[_ <-] | [_ Hkey]].
  - apply list_elem_of_singleton in Hin. injection Hin as _ ->.
    set_unfold in Ht. destruct Ht as [Ht | [Ht | []]]; rewrite Ht; discriminate.
  - apply lookup_singleton_Some in Hkey as [_ <-].
    apply list_elem_of_singleton in Hin. injection Hin as _ ->.
    set_unfold in Ht. destruct Ht as [Ht | []]; rewrite Ht; discriminate.
Qed.

Lemma C5_findTaskOccurrences_witness :
  findTaskOccurrences (Some collidingSchedule) "Wipe counters" = [Daily "Daily"]
  /\ findTaskOccurrences (Some collidingSchedule) "Dust" = []
  /\ Weekly 7 "Monday" 1 ∈ findTaskOccurrences (Some collidingSchedule) "Vacuum".
Proof.
  split; [| split].
  - apply (proj1 (C5_findTaskOccurrences collidingSchedule "Wipe counters")).
    exists wipe_counters. split; [apply list_elem_of_here | reflexivity].
  - apply (proj1 (proj2 (C5_findTaskOccurrences collidingSchedule "Dust"))).
    + intros t Ht. simpl in Ht. apply list_elem_of_singleton in Ht. subst t. discriminate.
    + apply collidingSchedule_no_dust.
  - apply (proj2 (C5_findTaskOccurrences collidingSchedule "Vacuum")).
    + intros t Ht. simpl in Ht. apply list_elem_of_singleton in Ht. subst t. discriminate.
    + exists 7, [("Monday", [vacuum])], "Monday", [vacuum].
      split; [lia |]. split; [reflexivity |].
      split; [apply list_elem_of_here |].
      split; [| reflexivity].
      exists vacuum. split; [apply list_elem_of_here | reflexivity].
Defined.

(** ** Properties of the due-date calculator *)

Section EngineFacts.
Context (host : Host).

Lemma overdue_formatNext today nextDate isOverdue :
  overdue (formatNext host today nextDate isOverdue) = isOverdue.
Proof. unfold formatNext; cbv zeta. by repeat case_bool_decide. Qed.

Lemma setHours0_day now :
  (setHours0 host now + tzOffset host) `div` MS_PER_DAY
  = (now + tzOffset host) `div` MS_PER_DAY
  /\ (setHours0 host now + tzOffset host) `mod` MS_PER_DAY = 0.
Proof.
  unfold setHours0.
  pose proof (Z.div_mod (now + tzOffset host) MS_PER_DAY ltac:(discriminate)) as Hdm.
  replace (now - (now + tzOffset host) `mod` MS_PER_DAY + tzOffset host)
    with (((now + tzOffset host) `div` MS_PER_DAY) * MS_PER_DAY) by lia.
  split; [apply Z.div_mul | apply Z.mod_mul]; discriminate.
Qed.

Lemma getDay_range t : 0 <= getDay host t <= 6.
Proof. unfold getDay. pose proof (Z.mod_pos_bound ((t + tzOffset host) `div` MS_PER_DAY + 4) 7). lia. Qed.

(** C6: with an empty occurrence array the result is never overdue and
    reads [As needed] when a completion is on record and [Not scheduled]
    when none is; a name absent from the daily tasks and from the rotation,
    with no history, gets [Not scheduled]. *)
Theorem C6_unscheduled (schedule : option Schedule) (now : Z) (task : Item.t) :
  (findTaskOccurrences schedule (Item.name task) = [] ->
   overdue (getNextScheduledDate host schedule now task) = false
   /\ (is_Some (Item.lastCompleted task) ->
       text (getNextScheduledDate host schedule now task) = "As needed")
   /\ (Item.lastCompleted task = None ->
       text (getNextScheduledDate host schedule now task) = "Not scheduled"))
  /\ (forall s, schedule = Some s ->
      (forall t, t ∈ daily_tasks s -> Task.name t <> Item.name task) ->
      absentFromRotation s (Item.name task) ->
      Item.lastCompleted task = None ->
      getNextScheduledDate host schedule now task
      = {| text := "Not scheduled"; overdue := false |}).
Proof.
  split.
  - intros Hocc. unfold getNextScheduledDate; cbv zeta. rewrite Hocc.
    split; [by destruct (Item.lastCompleted task) |].
    split.
    + intros [lc Hlc]. by rewrite Hlc.
    + intros Hlc. by rewrite Hlc.
  - intros s -> Hd Hr Hlc. unfold getNextScheduledDate; cbv zeta.
    rewrite findTaskOccurrences_absent by done. by rewrite Hlc.
Qed.


End EngineFacts.

Lemma C6_unscheduled_witness :
  getNextScheduledDate utcHost (Some vacuumSchedule) monday_week1
    {| Item.name := "Dust"; Item.howOften := "Monthly"; Item.lastCompleted := Some 19700 |}
  = {| text := "As needed"; overdue := false |}
  /\ getNextScheduledDate utcHost None monday_week1
       {| Item.name := "Dust"; Item.howOften := "Monthly"; Item.lastCompleted := None |}
     = {| text := "Not scheduled"; overdue := false |}.
Proof.
  split.
  - pose (task := {| Item.name := "Dust"; Item.howOften := "Monthly";
                     Item.lastCompleted := Some 19700 |}).
    destruct (proj1 (C6_unscheduled utcHost (Some vacuumSchedule) monday_week1 task))
      as (Hov & Htext & _); [reflexivity |].
    specialize (Htext (mk_is_Some _ _ eq_refl)).
    change (getNextScheduledDate utcHost (Some vacuumSchedule) monday_week1 task
            = {| text := "As needed"; overdue := false |}).
    destruct (getNextScheduledDate utcHost (Some vacuumSchedule) monday_week1 task).
    simpl in *. by subst.
  - pose (task := {| Item.name := "Dust"; Item.howOften := "Monthly";
                     Item.lastCompleted := None |}).
    destruct (proj1 (C6_unscheduled utcHost None monday_week1 task))
      as (Hov & _ & Htext); [reflexivity |].
    specialize (Htext eq_refl).
    change (getNextScheduledDate utcHost None monday_week1 task
            = {| text := "Not scheduled"; overdue := false |}).
    destruct (getNextScheduledDate utcHost None monday_week1 task).
    simpl in *. by subst.
Defined.


(** ** The weekly path *)

Lemma indexOf_daysOfWeek_range dayName :
  dayName ∈ daysOfWeek -> 0 <= indexOf daysOfWeek dayName <= 6.
Proof.
  unfold daysOfWeek. intros Hin.
  repeat (apply elem_of_cons in Hin as [-> | Hin]; [vm_compute; split; discriminate |]).
  by apply elem_of_nil in Hin.
Qed.

(** The first element of the sorted array is one of its elements and the
    least of them. *)
Lemma head_merge_sort (l : list Z) :
  l <> [] ->
  exists x, head (merge_sort Z.le l) = Some x /\ x ∈ l /\ Forall (Z.le x) l.
Proof.
  intros Hne.
  pose proof (merge_sort_Permutation Z.le l) as Hperm.
  pose proof (StronglySorted_merge_sort Z.le l) as Hsorted.
  destruct (merge_sort Z.le l) as [| x sorted].
  - apply Permutation_nil_l in Hperm. by subst.
  - exists x. split; [done |].
    apply StronglySorted_inv in Hsorted as [_ Hle].
    split.
    + rewrite <- Hperm. apply list_elem_of_here.
    + rewrite <- Hperm. constructor; [lia | done].
Qed.

Section WeeklyFacts.
Context (host : Host).

(** A slot on the weekday of [today], in the current week of the cycle,
    is pushed as the same weekday one week later. *)
Lemma nextOccurrence_same_day today currentWeek week dayName :
  Z.rem (week - currentWeek + 12) 12 = 0 ->
  nextOccurrence host today currentWeek (Weekly week dayName (getDay host today))
  = addDays today 7.
Proof.
  intros Hweeks. unfold nextOccurrence, addDays; cbv zeta. rewrite Hweeks.
  replace (- getDay host today + getDay host today) with 0 by lia.
  rewrite Z.mul_0_l. repeat case_bool_decide; lia.
Qed.

(** The days since completion are the difference of the local day numbers
    of [now] and of UTC midnight of the recorded date. *)
Lemma daysSinceCompletion_days now lastCompleted :
  daysSinceCompletion host (setHours0 host now) lastCompleted
  = (now + tzOffset host) `div` MS_PER_DAY
    - (Date_ofISO lastCompleted + tzOffset host) `div` MS_PER_DAY.
Proof.
  unfold daysSinceCompletion; cbv zeta.
  destruct (setHours0_day host now) as [Hd1 Hm1].
  destruct (setHours0_day host (Date_ofISO lastCompleted)) as [Hd2 Hm2].
  rewrite <- Hd1, <- Hd2.
  set (a := setHours0 host now) in *.
  set (b := setHours0 host (Date_ofISO lastCompleted)) in *.
  pose proof (Z.div_mod (a + tzOffset host) MS_PER_DAY ltac:(discriminate)) as Ha.
  pose proof (Z.div_mod (b + tzOffset host) MS_PER_DAY ltac:(discriminate)) as Hb.
  replace (a - b)
    with (((a + tzOffset host) `div` MS_PER_DAY - (b + tzOffset host) `div` MS_PER_DAY)
          * MS_PER_DAY) by lia.
  apply Z.div_mul. discriminate.
Qed.

End WeeklyFacts.

Lemma vacuumSchedule_canonical : canonicalDays vacuumSchedule.
Proof.
  intros key week dayName tasks Hkey Hin.
  unfold vacuumSchedule in Hkey; simpl in Hkey.
  apply lookup_insert_Some in Hkey as [[_ <-] | [_ Hkey]].
  - apply list_elem_of_singleton in Hin. injection Hin as -> _.
    unfold daysOfWeek. set_solver.
  - apply lookup_singleton_Some in Hkey as [_ <-].
    apply list_elem_of_singleton in Hin. injection Hin as -> _.
    unfold daysOfWeek. set_solver.
Qed.

(** Without the invariant on day names the bound is lost: a key that is
    not in [daysOfWeek] gets the index -1 and, on a Saturday of its week,
    the date of today. *)
Example noncanonical_day_name_due_today :
  getNextScheduledDate utcHost (Some lowercaseSchedule) saturday_week1 vacuum_never
  = {| text := "Due today"; overdue := false |}.
Proof. vm_compute. reflexivity. Qed.

(** C1: on a Monday of cycle week 1 the task [Vacuum], scheduled on the
    Mondays of weeks 1 and 7 and never completed, is not reported as due
    today: the slot of the day is rolled forward by seven days, and the
    result reads [Monday (8 Jan 2024)].  It is not overdue, and the
    expected interval is 42 days. *)
Theorem C1_vacuum_monday_week1 :
  getCurrentWeekInCycle monday_week1 = 1
  /\ getDay utcHost monday_week1 = 1
  /\ findTaskOccurrences (Some vacuumSchedule) "Vacuum"
     = [Weekly 1 "Monday" 1; Weekly 7 "Monday" 1]
  /\ expectedFrequencyDays (findTaskOccurrences (Some vacuumSchedule) "Vacuum") = 42
  /\ nextOccurrences utcHost monday_week1 (findTaskOccurrences (Some vacuumSchedule) "Vacuum")
     = [addDays (setHours0 utcHost monday_week1) 7;
        addDays (setHours0 utcHost monday_week1) 49]
  /\ getNextScheduledDate utcHost (Some vacuumSchedule) monday_week1 vacuum_never
     = {| text := "Monday (8 Jan 2024)"; overdue := false |}.
Proof. vm_compute. repeat split. Qed.

(** ** Properties of the stores *)

Section StoreFacts.
Context (host : Host).

Lemma saveHistory_persisted history w :
  historyPersisted host (saveHistory host history w) history.
Proof.
  unfold historyPersisted, saveHistory.
  destruct (db w) as [fs |] eqn:Hdb; [destruct (online fs) eqn:Hon |]; simpl.
  - by rewrite Hon.
  - rewrite Hdb, Hon. apply lookup_insert_eq.
  - rewrite Hdb. apply lookup_insert_eq.
Qed.

End StoreFacts.

Section ParseFailures.
Context (host : Host).

Lemma loadTaskStates_total now w :
  exists w', loadTaskStates host now w = Ok w'.
Proof.
  unfold loadTaskStates; cbv zeta.
  destruct (db w) as [fs |]; [destruct (online fs) |]; eauto.
  destruct (taskStates fs !! toDateString host now); eauto.
Qed.

(** C7: when the remote store is not used, a local history text that
    fails to parse makes [getTaskHistory] throw the [SyntaxError] instead
    of returning the empty history, whereas [loadTaskStates] on a local
    state text that fails to parse returns with the page unchanged. *)
Theorem C7_parse_failure (now : Z) (w : World) (savedHistory savedStates : string) :
  (db w = None \/ exists fs, db w = Some fs /\ online fs = false) ->
  getItem HISTORY_KEY w = Some savedHistory ->
  JSON_parse_history host savedHistory = None ->
  getItem STORAGE_KEY w = Some savedStates ->
  JSON_parse_states host savedStates = None ->
  getTaskHistory host w = Throw SyntaxError
  /\ loadTaskStates host now w = Ok w.
Proof.
  intros Hdb Hh Hph Hs Hps. split.
  - unfold getTaskHistory.
    assert (Hlocal : localHistory host w = Throw SyntaxError)
      by (unfold localHistory; by rewrite Hh, Hph).
    destruct Hdb as [-> | (fs & -> & ->)]; exact Hlocal.
  - unfold loadTaskStates; cbv zeta.
    assert (Hlocal : forall clearStale,
               loadLocalStates host (toDateString host now) clearStale w = w)
      by (intros clearStale; unfold loadLocalStates; by rewrite Hs, Hps).
    destruct Hdb as [-> | (fs & -> & ->)]; by rewrite Hlocal.
Qed.

(** The failure of [getTaskHistory] leaves [recordTaskCompletion] too. *)
Lemma recordTaskCompletion_throws now taskName taskLocation w e :
  getTaskHistory host w = Throw e ->
  recordTaskCompletion host now taskName taskLocation w = Throw e.
Proof. intros H. unfold recordTaskCompletion. by rewrite H. Qed.

End ParseFailures.

Section TaskStateFacts.
Context (host : Host).

(** C10: [saveTaskStates] always returns, leaves the document built from
    the checkboxes under the key of the day, and a second call on the same
    day with the same checkboxes changes nothing. *)
Theorem C10_saveTaskStates_idempotent (now now' : Z) (w : World) :
  toDateString host now' = toDateString host now ->
  exists w1,
    saveTaskStates host now w = Ok w1
    /\ saveTaskStates host now' w1 = Ok w1
    /\ checkboxes w1 = checkboxes w
    /\ statesPersisted host w1 (toDateString host now)
         {| date := toDateString host now; tasks := collectStates (checkboxes w) |}.
Proof.
  intros Hday. unfold saveTaskStates, statesPersisted; cbv zeta. rewrite Hday.
  destruct (db w) as [fs |] eqn:Hdb; [destruct (online fs) eqn:Hon |];
    eexists; (split; [reflexivity |]); simpl.
  - rewrite Hon. split; [| split; [done | apply lookup_insert_eq]].
    unfold with_db, set_taskState; simpl. by rewrite insert_insert_eq.
  - rewrite Hdb, Hon. split; [| split; [done | apply lookup_insert_eq]].
    unfold with_localStorage; simpl. by rewrite insert_insert_eq.
  - rewrite Hdb. split; [| split; [done | apply lookup_insert_eq]].
    unfold with_localStorage; simpl. by rewrite insert_insert_eq.
Qed.

End TaskStateFacts.

Lemma C7_parse_failure_witness :
  getTaskHistory utcHost brokenWorld = Throw SyntaxError
  /\ loadTaskStates utcHost monday_week1 brokenWorld = Ok brokenWorld.
Proof.
  apply (C7_parse_failure utcHost monday_week1 brokenWorld "{not json" "{not json").
  - left. reflexivity.
  - reflexivity.
  - reflexivity.
  - reflexivity.
  - reflexivity.
Defined.

Lemma C10_saveTaskStates_idempotent_witness :
  exists w1,
    saveTaskStates utcHost monday_week1 dustWorld = Ok w1
    /\ saveTaskStates utcHost (monday_week1 + 60 * 60 * 1000) w1 = Ok w1.
Proof.
  destruct (C10_saveTaskStates_idempotent utcHost monday_week1
              (monday_week1 + 60 * 60 * 1000) dustWorld) as (w1 & H1 & H2 & _).
  - vm_compute. reflexivity.
  - exists w1. split; [exact H1 | exact H2].
Defined.

(** * Further properties *)

(** ** The cycle clock and the day names *)

(** X1: the week of the cycle is always between 1 and 12, so the key built
    from it is one of [week_1] to [week_12]. *)
Theorem X1_week_in_cycle (now : Z) :
  1 <= getCurrentWeekInCycle now <= 12
  /\ weekKey (getCurrentWeekInCycle now) ∈ weekKey <$> seqZ 1 12.
Proof.
  pose proof (getCurrentWeekInCycle_range now) as Hr. split; [done |].
  apply list_elem_of_fmap. exists (getCurrentWeekInCycle now).
  split; [done |]. apply elem_of_seqZ. lia.
Qed.

(** X2: the clock is symmetric around the reference date: the instants
    [x] milliseconds after it and [x] milliseconds before it are in the
    same week of the cycle. *)
Theorem X2_clock_mirrored (x : Z) :
  getCurrentWeekInCycle (REFERENCE_DATE + x) = getCurrentWeekInCycle (REFERENCE_DATE - x).
Proof.
  unfold getCurrentWeekInCycle; cbv zeta. f_equal. f_equal. f_equal.
  rewrite <- (Z.abs_opp (REFERENCE_DATE - x - REFERENCE_DATE)). f_equal. lia.
Qed.

(** X3: from the reference date on, seven days later is the next week of
    the cycle, week 1 following week 12; before the reference date the
    weeks run the other way, seven days earlier being the next week. *)
Theorem X3_week_steps (d : Z) :
  (REFERENCE_DATE <= d ->
   getCurrentWeekInCycle (d + MS_PER_WEEK) = getCurrentWeekInCycle d `mod` 12 + 1)
  /\ (d <= REFERENCE_DATE ->
      getCurrentWeekInCycle (d - MS_PER_WEEK) = getCurrentWeekInCycle d `mod` 12 + 1).
Proof.
  assert (Hstep : forall x, 0 <= x ->
            Z.rem ((x + MS_PER_WEEK) `div` MS_PER_WEEK) CYCLE_LENGTH_WEEKS + 1
            = (Z.rem (x `div` MS_PER_WEEK) CYCLE_LENGTH_WEEKS + 1) `mod` 12 + 1).
  { intros x Hx.
    replace (x + MS_PER_WEEK) with (x + 1 * MS_PER_WEEK) by lia.
    rewrite Z.div_add by discriminate.
    assert (0 <= x `div` MS_PER_WEEK) by (apply Z.div_pos; [lia | reflexivity]).
    unfold CYCLE_LENGTH_WEEKS. rewrite !Z.rem_mod_nonneg by lia.
    rewrite (Z.add_mod (x `div` MS_PER_WEEK) 1 12) by discriminate. reflexivity. }
  assert (0 < MS_PER_WEEK) by reflexivity.
  split; intros Hd; unfold getCurrentWeekInCycle; cbv zeta.
  - rewrite !Z.abs_eq by lia.
    replace (d + MS_PER_WEEK - REFERENCE_DATE) with (d - REFERENCE_DATE + MS_PER_WEEK) by lia.
    apply Hstep. lia.
  - rewrite !Z.abs_neq by lia.
    replace (- (d - MS_PER_WEEK - REFERENCE_DATE))
      with (- (d - REFERENCE_DATE) + MS_PER_WEEK) by lia.
    apply Hstep. lia.
Qed.

Lemma X3_week_steps_witness :
  getCurrentWeekInCycle (monday_week1 + 11 * MS_PER_WEEK + MS_PER_WEEK) = 1
  /\ getCurrentWeekInCycle (REFERENCE_DATE - MS_PER_WEEK) = 2.
Proof.
  split.
  - rewrite (proj1 (X3_week_steps (monday_week1 + 11 * MS_PER_WEEK))).
    + reflexivity.
    + vm_compute. discriminate.
  - rewrite (proj2 (X3_week_steps REFERENCE_DATE)).
    + reflexivity.
    + lia.
Defined.

Lemma indexOf_range (l : list string) (x : string) :
  -1 <= indexOf l x < Z.of_nat (length l).
Proof.
  induction l as [| y l IH]; simpl; [lia |].
  case_bool_decide; [lia |]. destruct (indexOf l x <? 0) eqn:E; lia.
Qed.

Lemma indexOf_absent (l : list string) (x : string) :
  indexOf l x = -1 <-> x ∉ l.
Proof.
  induction l as [| y l IH]; simpl.
  - split; [intros _; apply not_elem_of_nil | done].
  - rewrite not_elem_of_cons. pose proof (indexOf_range l x).
    case_bool_decide as Hy.
    + split; [lia | intros [Hne _]; by subst].
    + destruct (indexOf l x <? 0) eqn:E.
      * apply Z.ltb_lt in E. split; [intros _ | done].
        split; [congruence | apply IH; lia].
      * apply Z.ltb_ge in E. split; [lia |]. intros [_ Hnot].
        apply IH in Hnot. lia.
Qed.

Lemma indexOf_lookup (l : list string) (x : string) :
  0 <= indexOf l x -> l !! Z.to_nat (indexOf l x) = Some x.
Proof.
  induction l as [| y l IH]; simpl; [lia |].
  case_bool_decide as Hy; [by subst |].
  destruct (indexOf l x <? 0) eqn:E; [lia |].
  apply Z.ltb_ge in E. intros _.
  replace (Z.to_nat (indexOf l x + 1)) with (S (Z.to_nat (indexOf l x))) by lia.
  simpl. by apply IH.
Qed.

Section DayFacts.
Context (host : Host).

(** X4: [getCurrentDay] always finds a name in its array, one of the seven
    day names, and [indexOf] on [daysOfWeek] gives back the weekday number
    it was taken from. *)
Theorem X4_getCurrentDay (now : Z) :
  daysOfWeek !! Z.to_nat (getDay host now) = Some (getCurrentDay host now)
  /\ getCurrentDay host now ∈ daysOfWeek
  /\ indexOf daysOfWeek (getCurrentDay host now) = getDay host now.
Proof.
  unfold getCurrentDay. pose proof (getDay_range host now) as Hg.
  assert (Hcases : getDay host now = 0 \/ getDay host now = 1 \/ getDay host now = 2
                   \/ getDay host now = 3 \/ getDay host now = 4
                   \/ getDay host now = 5 \/ getDay host now = 6) by lia.
  destruct Hcases as [-> | [-> | [-> | [-> | [-> | [-> | ->]]]]]];
    (split; [reflexivity |]); (split; [| reflexivity]);
    cbn; unfold daysOfWeek;
    repeat first [apply list_elem_of_here | apply list_elem_of_further].
Qed.

End DayFacts.

(** X5: every weekly occurrence reported carries a week between 1 and 12
    and a day index between -1 and 6; the index is -1 exactly for a day
    key that is not one of the seven names, and otherwise it is the place
    of the key in [daysOfWeek]. *)
Theorem X5_occurrence_fields (schedule : option Schedule) (taskName : string)
    (week : Z) (dayName : string) (dayOfWeek : Z) :
  Weekly week dayName dayOfWeek ∈ findTaskOccurrences schedule taskName ->
  1 <= week <= 12
  /\ -1 <= dayOfWeek <= 6
  /\ (dayOfWeek = -1 <-> dayName ∉ daysOfWeek)
  /\ (0 <= dayOfWeek -> daysOfWeek !! Z.to_nat dayOfWeek = Some dayName).
Proof.
  intros Hin. destruct schedule as [schedule |]; [| by apply elem_of_nil in Hin].
  destruct (hasTask taskName (daily_tasks schedule)) eqn:Hd.
  - rewrite findTaskOccurrences_daily in Hin by done.
    apply list_elem_of_singleton in Hin. discriminate.
  - apply elem_of_rotation in Hin; [| done].
    destruct Hin as (w & _ & d & _ & Hw & _ & _ & _ & Heq).
    assert (week = w /\ dayName = d /\ dayOfWeek = indexOf daysOfWeek d)
      as (-> & -> & ->) by (inversion Heq; auto).
    pose proof (indexOf_range daysOfWeek d) as Hr.
    change (Z.of_nat (length daysOfWeek)) with 7 in Hr.
    split; [done |]. split; [lia |].
    split; [apply indexOf_absent | apply indexOf_lookup].
Qed.

Lemma X5_occurrence_fields_witness :
  1 <= 7 <= 12 /\ -1 <= 1 <= 6 /\ (1 = -1 <-> "Monday" ∉ daysOfWeek)
  /\ (0 <= 1 -> daysOfWeek !! Z.to_nat 1 = Some "Monday").
Proof.
  apply (X5_occurrence_fields (Some vacuumSchedule) "Vacuum" 7 "Monday" 1).
  vm_compute. apply list_elem_of_further, list_elem_of_here.
Defined.

(** ** The due-date calculator *)

Section DueFacts.
Context (host : Host).






End DueFacts.



(** ** The history store *)

Section HistoryFacts.
Context (host : Host).

Lemma remote_true w :
  remote w = true <-> exists fs, db w = Some fs /\ online fs = true.
Proof.
  unfold remote. destruct (db w) as [fs |]; [| split; [done | by intros (? & ? & _)]].
  split; [eauto |]. by intros (fs' & [= <-] & ->).
Qed.

Lemma getTaskHistory_local w :
  remote w = false -> getTaskHistory host w = localHistory host w.
Proof.
  unfold remote, getTaskHistory.
  destruct (db w) as [fs |]; [| done]. by intros ->.
Qed.

Lemma getTaskHistory_remote w :
  remote w = true -> exists history, getTaskHistory host w = Ok history.
Proof.
  intros (fs & Hdb & Hon)%remote_true. unfold getTaskHistory.
  rewrite Hdb, Hon. eauto.
Qed.

Lemma remote_saveHistory history w :
  remote (saveHistory host history w) = remote w.
Proof.
  unfold saveHistory, remote.
  destruct (db w) as [fs |] eqn:Hdb; [destruct (online fs) eqn:Hon |]; simpl;
    by rewrite ?Hdb, ?Hon.
Qed.

Lemma getTaskHistory_saveHistory history w :
  (remote w = false -> historyReadsBack host history) ->
  getTaskHistory host (saveHistory host history w) = Ok history.
Proof.
  intros Hback. unfold saveHistory, getTaskHistory.
  destruct (db w) as [fs |] eqn:Hdb; [destruct (online fs) eqn:Hon |]; simpl.
  - by rewrite Hon.
  - destruct Hback as [Hne Hparse]; [unfold remote; by rewrite Hdb, Hon |].
    rewrite Hdb, Hon. unfold localHistory, getItem; simpl.
    rewrite lookup_insert_eq, bool_decide_eq_false_2 by done. by rewrite Hparse.
  - destruct Hback as [Hne Hparse]; [unfold remote; by rewrite Hdb |].
    rewrite Hdb. unfold localHistory, getItem; simpl.
    rewrite lookup_insert_eq, bool_decide_eq_false_2 by done. by rewrite Hparse.
Qed.

(** X12: [saveTaskStates] leaves the history alone: what [getTaskHistory]
    gives is the same before and after, and so are the checkboxes and the
    state documents of all other days. *)
Theorem X12_save_keeps_history (now : Z) (w : World) :
  exists w1,
    saveTaskStates host now w = Ok w1
    /\ getTaskHistory host w1 = getTaskHistory host w
    /\ checkboxes w1 = checkboxes w
    /\ forall key, key <> toDateString host now -> stateDocOf w1 key = stateDocOf w key.
Proof.
  unfold saveTaskStates, getTaskHistory, stateDocOf; cbv zeta.
  destruct (db w) as [fs |] eqn:Hdb; [destruct (online fs) eqn:Hon |];
    eexists; (split; [reflexivity |]); simpl; rewrite ?Hdb, ?Hon; simpl.
  - split; [done |]. split; [done |]. intros key Hne. by rewrite lookup_insert_ne.
  - split; [| done]. unfold localHistory, getItem; simpl.
    by rewrite lookup_insert_ne.
  - split; [| done]. unfold localHistory, getItem; simpl.
    by rewrite lookup_insert_ne.
Qed.

(** X13: [recordTaskCompletion] leaves the task states alone: the
    checkboxes, the remote state documents and the local state text are
    the same before and after. *)
Theorem X13_record_keeps_states (now : Z) (taskName taskLocation : string)
    (w w' : World) :
  recordTaskCompletion host now taskName taskLocation w = Ok w' ->
  checkboxes w' = checkboxes w
  /\ (forall key, stateDocOf w' key = stateDocOf w key)
  /\ localStorage w' !! STORAGE_KEY = localStorage w !! STORAGE_KEY
  /\ remote w' = remote w.
Proof.
  unfold recordTaskCompletion.
  destruct (getTaskHistory host w) as [history | e]; [| done].
  intros [= <-]. split; [| split; [| split; [| apply remote_saveHistory]]].
  - unfold saveHistory. by destruct (db w) as [fs |]; [destruct (online fs) |].
  - intros key. unfold saveHistory, stateDocOf.
    destruct (db w) as [fs |] eqn:Hdb; [destruct (online fs) |]; simpl; by rewrite ?Hdb.
  - unfold saveHistory.
    destruct (db w) as [fs |]; [destruct (online fs) |]; simpl;
      by rewrite ?lookup_insert_ne.
Qed.

End HistoryFacts.

Lemma X13_record_keeps_states_witness :
  exists w',
    recordTaskCompletion utcHost noon_25_mar "Vacuum" "Living Room" dustWorld = Ok w'
    /\ checkboxes w' = checkboxes dustWorld.
Proof.
  eexists. split; [reflexivity |].
  eapply (X13_record_keeps_states utcHost noon_25_mar "Vacuum" "Living Room" dustWorld).
  reflexivity.
Defined.

(** ** The task-state store *)

Lemma setChecked_ids taskId v (cbs : list (string * bool)) :
  (setChecked taskId v cbs).*1 = cbs.*1.
Proof.
  induction cbs as [| [i c] cbs IH]; simpl; [done |].
  case_bool_decide; simpl; [done | by f_equal].
Qed.

Lemma overwritten_cons (tasks : gmap string bool) i c (cbs : list (string * bool)) :
  overwritten tasks ((i, c) :: cbs) = (i, default c (tasks !! i)) :: overwritten tasks cbs.
Proof. reflexivity. Qed.

Lemma overwritten_empty (cbs : list (string * bool)) : overwritten ∅ cbs = cbs.
Proof.
  induction cbs as [| [i c] cbs IH]; [done |].
  by rewrite overwritten_cons, lookup_empty, IH.
Qed.

Lemma overwritten_insert_fresh taskId v (tasks : gmap string bool)
    (cbs : list (string * bool)) :
  taskId ∉ cbs.*1 ->
  overwritten (<[taskId := v]> tasks) cbs = overwritten tasks cbs.
Proof.
  induction cbs as [| [i c] cbs IH]; [done |].
  rewrite fmap_cons, not_elem_of_cons. intros [Hne Hnot].
  rewrite !overwritten_cons, lookup_insert_ne by done. by rewrite IH.
Qed.

Lemma setChecked_overwritten taskId v (tasks : gmap string bool)
    (cbs : list (string * bool)) :
  NoDup cbs.*1 ->
  setChecked taskId v (overwritten tasks cbs) = overwritten (<[taskId := v]> tasks) cbs.
Proof.
  induction cbs as [| [i c] cbs IH]; [done |].
  rewrite fmap_cons, NoDup_cons. intros [Hnot Hnd].
  rewrite !overwritten_cons. simpl setChecked.
  case_bool_decide as Hi.
  - subst i. rewrite lookup_insert_eq. simpl.
    by rewrite overwritten_insert_fresh.
  - rewrite lookup_insert_ne by done. by rewrite IH.
Qed.

(** With distinct ids the loop that applies a document writes each value
    over the checkbox of its id. *)
Lemma applyStates_overwritten data w :
  NoDup (checkboxes w).*1 ->
  applyStates data w = with_checkboxes (overwritten (tasks data) (checkboxes w)) w.
Proof.
  intros Hnd. unfold applyStates. f_equal.
  apply (map_fold_weak_ind
           (fun r (m : gmap string bool) => r = overwritten m (checkboxes w))).
  - by rewrite overwritten_empty.
  - intros i x m r _ ->. by apply setChecked_overwritten.
Qed.

Lemma applyStates_ids data w :
  (checkboxes (applyStates data w)).*1 = (checkboxes w).*1.
Proof.
  unfold applyStates; simpl.
  apply (map_fold_weak_ind
           (fun (r : list (string * bool)) (_ : gmap string bool) =>
              r.*1 = (checkboxes w).*1)).
  - done.
  - intros i x m r _ IH. by rewrite setChecked_ids.
Qed.

Lemma checkedOf_None taskId (cbs : list (string * bool)) :
  checkedOf taskId cbs = None <-> taskId ∉ cbs.*1.
Proof.
  induction cbs as [| [i c] cbs IH]; simpl.
  - split; [intros _; apply not_elem_of_nil | done].
  - rewrite not_elem_of_cons. case_bool_decide as Hi.
    + split; [done |]. intros [Hne _]. by subst.
    + rewrite IH. split; [intros ?; split; [by intros -> | done] | tauto].
Qed.

Lemma checkedOf_elem taskId c (cbs : list (string * bool)) :
  NoDup cbs.*1 -> (taskId, c) ∈ cbs -> checkedOf taskId cbs = Some c.
Proof.
  induction cbs as [| [i c'] cbs IH]; simpl.
  - intros _ Hin. by apply elem_of_nil in Hin.
  - rewrite NoDup_cons, elem_of_cons. intros [Hnot Hnd] [Heq | Hin].
    + injection Heq as -> ->. by rewrite bool_decide_eq_true_2.
    + rewrite bool_decide_eq_false_2; [by apply IH |].
      intros ->. apply Hnot. apply list_elem_of_fmap. by exists (taskId, c).
Qed.

(** The object built from the checkboxes holds, for every id, the value of
    the last checkbox with that id, and nothing for other ids. *)
Lemma collectStates_lookup taskId (cbs : list (string * bool)) :
  NoDup cbs.*1 -> collectStates cbs !! taskId = checkedOf taskId cbs.
Proof.
  unfold collectStates.
  assert (Hgen : forall acc : gmap string bool, NoDup cbs.*1 ->
            foldl (fun taskStates cb => <[cb.1 := cb.2]> taskStates) acc cbs !! taskId
            = match checkedOf taskId cbs with Some c => Some c | None => acc !! taskId end).
  { induction cbs as [| [i c] cbs IH]; intros acc; simpl; [done |].
    rewrite NoDup_cons. intros [Hnot Hnd]. rewrite IH by done.
    case_bool_decide as Hi.
    - subst i. apply checkedOf_None in Hnot. by rewrite Hnot, lookup_insert_eq.
    - by rewrite lookup_insert_ne. }
  intros Hnd. rewrite Hgen by done. rewrite lookup_empty. by destruct (checkedOf taskId cbs).
Qed.

Lemma overwritten_collectStates (cbs : list (string * bool)) :
  NoDup cbs.*1 -> overwritten (collectStates cbs) cbs = cbs.
Proof.
  intros Hnd. unfold overwritten.
  transitivity (id <$> cbs); [| apply list_fmap_id]. apply list_fmap_ext.
  intros k [i c] Hk. simpl.
  rewrite collectStates_lookup by done.
  rewrite (checkedOf_elem i c cbs Hnd); [done |].
  by apply list_elem_of_lookup_2 in Hk.
Qed.

Lemma with_checkboxes_same w : with_checkboxes (checkboxes w) w = w.
Proof. by destruct w. Qed.

Section StateFacts.
Context (host : Host).

(** X14: [loadTaskStates] always returns, and it only sets [checked]
    flags: the checkboxes of the page, their ids and their order are the
    same before and after, and the remote store is not written. *)
Theorem X14_load_keeps_page (now : Z) (w : World) :
  exists w',
    loadTaskStates host now w = Ok w'
    /\ (checkboxes w').*1 = (checkboxes w).*1
    /\ db w' = db w.
Proof.
  unfold loadTaskStates; cbv zeta.
  assert (Hlocal : forall clearStale,
            (checkboxes (loadLocalStates host (toDateString host now) clearStale w)).*1
            = (checkboxes w).*1
            /\ db (loadLocalStates host (toDateString host now) clearStale w) = db w).
  { intros clearStale. unfold loadLocalStates.
    destruct (getItem STORAGE_KEY w) as [saved |]; [| done].
    destruct (JSON_parse_states host saved) as [data |]; [| done].
    case_bool_decide; [split; [apply applyStates_ids | done] |].
    by destruct clearStale. }
  destruct (db w) as [fs |] eqn:Hdb; [destruct (online fs) |].
  - destruct (taskStates fs !! toDateString host now) as [data |];
      eexists; (split; [reflexivity |]).
    + split; [apply applyStates_ids | done].
    + done.
  - eexists. split; [reflexivity |]. apply Hlocal.
  - eexists. split; [reflexivity |]. apply Hlocal.
Qed.

(** Saving and then loading on the same day, when the request of the
    load has the outcome the request of the save had. *)
Lemma save_then_load (now now' : Z) (w : World) :
  toDateString host now' = toDateString host now ->
  NoDup (checkboxes w).*1 ->
  (remote w = false ->
   statesReadBack host {| date := toDateString host now;
                          tasks := collectStates (checkboxes w) |}) ->
  exists w1,
    saveTaskStates host now w = Ok w1
    /\ loadTaskStates host now' w1 = Ok w1.
Proof.
  intros Hday Hnd Hback.
  unfold saveTaskStates, loadTaskStates; cbv zeta. rewrite Hday.
  set (data := {| date := toDateString host now;
                  tasks := collectStates (checkboxes w) |}) in *.
  assert (Happly : forall w1, checkboxes w1 = checkboxes w -> applyStates data w1 = w1).
  { intros w1 Hcb. rewrite applyStates_overwritten by (by rewrite Hcb).
    rewrite Hcb. subst data; simpl. rewrite overwritten_collectStates by done.
    rewrite <- Hcb. apply with_checkboxes_same. }
  destruct (db w) as [fs |] eqn:Hdb; [destruct (online fs) eqn:Hon |];
    eexists; (split; [reflexivity |]); simpl.
  - rewrite Hon, lookup_insert_eq. by rewrite Happly.
  - destruct Hback as [Hne Hparse]; [unfold remote; by rewrite Hdb, Hon |].
    rewrite Hdb, Hon. unfold loadLocalStates, getItem; simpl.
    rewrite lookup_insert_eq, bool_decide_eq_false_2 by done. rewrite Hparse.
    rewrite bool_decide_eq_true_2 by done. by rewrite Happly.
  - destruct Hback as [Hne Hparse]; [unfold remote; by rewrite Hdb |].
    rewrite Hdb. unfold loadLocalStates, getItem; simpl.
    rewrite lookup_insert_eq, bool_decide_eq_false_2 by done. rewrite Hparse.
    rewrite bool_decide_eq_true_2 by done. by rewrite Happly.
Qed.

Lemma reach_saveTaskStates answers now w w1 :
  saveTaskStates host now (reach answers w) = Ok w1 -> reach answers w1 = w1.
Proof.
  unfold saveTaskStates, reach; cbv zeta.
  destruct (db w) as [fs |] eqn:Hdb; simpl; [destruct answers |]; simpl;
    rewrite ?Hdb; intros [= <-]; simpl; by rewrite ?Hdb.
Qed.

(** X15: what [saveTaskStates] wrote, [loadTaskStates] reads back on the
    same day, when its request to the remote store has the outcome the
    request of the save had (both answered, both failed, or no remote store
    at all): on a page whose checkbox ids are distinct and fit for a
    selector, loading after saving changes nothing.  On the local copy this
    needs the codec to read back the text it wrote. *)
Theorem X15_save_then_load (now now' : Z) (answers : bool) (w : World) :
  toDateString host now' = toDateString host now ->
  NoDup (checkboxes w).*1 ->
  Forall selectorSafe (checkboxes w).*1 ->
  (remote (reach answers w) = false ->
   statesReadBack host {| date := toDateString host now;
                          tasks := collectStates (checkboxes w) |}) ->
  exists w1,
    saveTaskStates host now (reach answers w) = Ok w1
    /\ loadTaskStates host now' (reach answers w1) = Ok w1.
Proof.
  intros Hday Hnd _ Hback.
  assert (Hcb : checkboxes (reach answers w) = checkboxes w).
  { unfold reach. by destruct (db w). }
  destruct (save_then_load now now' (reach answers w)) as (w1 & Hsave & Hload);
    [done | by rewrite Hcb | by rewrite Hcb |].
  exists w1. split; [done |].
  by rewrite (reach_saveTaskStates answers now w w1).
Qed.

(** X16: states of another day are never applied.  When the store
    answers, only the document under today's key counts, and without one
    the page is left as it is; a local copy dated another day leaves the
    checkboxes as they are, and is deleted only when there is no remote
    store at all. *)
Theorem X16_other_days_ignored (now : Z) (w : World) :
  (forall fs, db w = Some fs -> online fs = true ->
     taskStates fs !! toDateString host now = None ->
     loadTaskStates host now w = Ok w)
  /\ (forall saved data,
        remote w = false ->
        getItem STORAGE_KEY w = Some saved ->
        JSON_parse_states host saved = Some data ->
        date data <> toDateString host now ->
        loadTaskStates host now w
        = Ok (match db w with
              | Some _ => w
              | None => with_localStorage (delete STORAGE_KEY (localStorage w)) w
              end)).
Proof.
  split.
  - intros fs Hdb Hon Hnone. unfold loadTaskStates; cbv zeta.
    by rewrite Hdb, Hon, Hnone.
  - intros saved data Hr Hget Hparse Hdate. unfold loadTaskStates; cbv zeta.
    unfold remote in Hr. unfold loadLocalStates.
    destruct (db w) as [fs |]; [rewrite Hr |];
      by rewrite Hget, Hparse, bool_decide_eq_false_2.
Qed.

End StateFacts.

Lemma X15_save_then_load_witness :
  exists w1,
    saveTaskStates utcHost monday_week1 (reach true dustWorld) = Ok w1
    /\ loadTaskStates utcHost (monday_week1 + 60 * 60 * 1000) (reach true w1) = Ok w1.
Proof.
  apply (X15_save_then_load utcHost monday_week1 (monday_week1 + 60 * 60 * 1000)
           true dustWorld).
  - vm_compute. reflexivity.
  - simpl. apply NoDup_cons. split.
    + intros Hin. apply list_elem_of_singleton in Hin. discriminate.
    + apply NoDup_singleton.
  - simpl. repeat constructor.
  - discriminate.
Defined.

Lemma X16_other_days_ignored_witness :
  loadTaskStates utcHost monday_week1 dustWorld = Ok dustWorld
  /\ loadTaskStates staleHost monday_week1 staleWorld
     = Ok (with_localStorage (delete STORAGE_KEY (localStorage staleWorld)) staleWorld).
Proof.
  split.
  - eapply (proj1 (X16_other_days_ignored utcHost monday_week1 dustWorld)); reflexivity.
  - apply (proj2 (X16_other_days_ignored staleHost monday_week1 staleWorld) staleText staleDoc).
    + reflexivity.
    + reflexivity.
    + reflexivity.
    + vm_compute. discriminate.
Defined.

(** ** Today's view *)

Lemma append_inj_r (s a b : string) : s +:+ a = s +:+ b -> a = b.
Proof. induction s as [| c s IH]; simpl; [done |]. intros [= H]. by apply IH. Qed.

Lemma NoDup_imap_taskId (mk : nat -> string) (l : list Task.t) :
  (forall i j, mk i = mk j -> i = j) ->
  NoDup (taskId <$> imap (fun index task => {| taskId := mk index; shown := task |}) l).
Proof.
  intros Hinj. apply NoDup_alt. intros i j x.
  rewrite !list_lookup_fmap, !list_lookup_imap.
  destruct (l !! i) as [ti |]; [| done]. destruct (l !! j) as [tj |]; [| done].
  simpl. intros [= <-] [= Heq]. by apply Hinj.
Qed.

Section TodayFacts.
Context (host : Host).

Lemma getCurrentDay_index now :
  daysOfWeek !! Z.to_nat (getDay host now) = Some (getCurrentDay host now)
  /\ indexOf daysOfWeek (getCurrentDay host now) = getDay host now.
Proof.
  unfold getCurrentDay. pose proof (getDay_range host now) as Hg.
  assert (Hcases : getDay host now = 0 \/ getDay host now = 1 \/ getDay host now = 2
                   \/ getDay host now = 3 \/ getDay host now = 4
                   \/ getDay host now = 5 \/ getDay host now = 6) by lia.
  by destruct Hcases as [-> | [-> | [-> | [-> | [-> | [-> | ->]]]]]].
Qed.

(** X17: the ids [renderTodaysTasks] gives to the checkboxes of the page
    are pairwise distinct, whatever the schedule. *)
Theorem X17_task_ids_distinct (schedule : option Schedule) (now : Z) :
  NoDup (taskId <$> renderedElements (renderTodaysTasks host schedule now)).
Proof.
  destruct schedule as [schedule |]; [| apply NoDup_nil_2].
  unfold renderTodaysTasks; cbv zeta.
  assert (Hdaily : NoDup (taskId <$> imap (fun index task =>
                            {| taskId := "daily-" +:+ pretty index; shown := task |})
                          (daily_tasks schedule))).
  { apply NoDup_imap_taskId. intros i j Heq%append_inj_r. by apply (inj pretty). }
  destruct (twelve_week_schedule schedule !! ("week_" +:+ pretty (getCurrentWeekInCycle now)))
    as [week |]; [| exact Hdaily].
  destruct (propertyOf week (getCurrentDay host now)) as [[| task tasks] |];
    [exact Hdaily | | exact Hdaily].
  cbv beta iota delta [renderedElements]. rewrite fmap_app. apply NoDup_app.
  split; [exact Hdaily |]. split.
  - intros x Hd Hf.
    apply list_elem_of_fmap in Hd as (ed & -> & Hd).
    apply list_elem_of_fmap in Hf as (ef & Heq & Hf).
    apply elem_of_lookup_imap in Hd as (i & ti & -> & _).
    apply elem_of_lookup_imap in Hf as (j & tj & -> & _).
    simpl in Heq. discriminate.
  - apply NoDup_imap_taskId. intros i j Heq.
    do 5 apply append_inj_r in Heq. by apply (inj pretty).
Qed.

(** X18: [renderTodaysTasks] stops with a [TypeError], after the daily
    list, exactly when the schedule has no entry for the current week; with
    all twelve weeks present it always renders both lists. *)
Theorem X18_missing_week_throws (schedule : Schedule) (now : Z) :
  ((exists daily total,
      renderTodaysTasks host (Some schedule) now = TypeErrorAfterDaily daily total)
   <-> twelve_week_schedule schedule !! weekKey (getCurrentWeekInCycle now) = None)
  /\ (fullRotation schedule ->
      exists daily total focus,
        renderTodaysTasks host (Some schedule) now = Rendered daily total focus).
Proof.
  unfold renderTodaysTasks, weekKey; cbv zeta. split.
  - destruct (twelve_week_schedule schedule !! ("week_" +:+ pretty (getCurrentWeekInCycle now)))
      as [week |].
    + split; [| done]. intros (daily & total & H).
      by destruct (propertyOf week (getCurrentDay host now)) as [[| task tasks] |].
    + split; [done | eauto].
  - intros Hfull.
    destruct (Hfull _ (getCurrentWeekInCycle_range now)) as [week Hweek].
    unfold weekKey in Hweek. rewrite Hweek.
    destruct (propertyOf week (getCurrentDay host now)) as [[| task tasks] |]; eauto.
Qed.

Lemma propertyOf_Some week day tasks :
  propertyOf week day = Some tasks -> (day, tasks) ∈ week.
Proof.
  unfold propertyOf.
  destruct (find (fun kv => bool_decide (kv.1 = day)) week) as [[d ts] |] eqn:Hfind;
    [| done].
  intros [= <-]. apply find_some in Hfind as [Hin Hd].
  apply bool_decide_eq_true in Hd. simpl in Hd. subst d.
  by apply list_elem_of_In.
Qed.

(** X19: every focus task shown today is one the occurrence index files
    under the current week and weekday: unless its name is also a daily
    task, [findTaskOccurrences] reports for it the slot of this week and
    this day, with today's weekday number. *)
Theorem X19_focus_tasks_indexed (schedule : Schedule) (now : Z)
    (daily elements : list TaskElement) (total focusTotal grandTotal : Z)
    (element : TaskElement) :
  renderTodaysTasks host (Some schedule) now
  = Rendered daily total (FocusTasks elements focusTotal grandTotal) ->
  element ∈ elements ->
  (forall t, t ∈ daily_tasks schedule -> Task.name t <> Task.name (shown element)) ->
  Weekly (getCurrentWeekInCycle now) (getCurrentDay host now) (getDay host now)
  ∈ findTaskOccurrences (Some schedule) (Task.name (shown element)).
Proof.
  unfold renderTodaysTasks; cbv zeta. intros Hrender Hin Hnd.
  destruct (twelve_week_schedule schedule !! ("week_" +:+ pretty (getCurrentWeekInCycle now)))
    as [week |] eqn:Hweek; [| done].
  destruct (propertyOf week (getCurrentDay host now)) as [[| task tasks] |] eqn:Hday;
    [done | | done].
  match type of Hrender with
  | Rendered _ _ (FocusTasks ?e _ _) = _ => assert (elements = e) as -> by congruence
  end.
  apply elem_of_lookup_imap in Hin as (i & t & -> & Hi). cbn [shown] in *.
  apply elem_of_rotation; [by apply hasTask_false |].
  exists (getCurrentWeekInCycle now), week, (getCurrentDay host now), (task :: tasks).
  split; [apply getCurrentWeekInCycle_range |]. split; [exact Hweek |].
  split; [by apply propertyOf_Some |]. split.
  - exists t. split; [| done]. by apply list_elem_of_lookup_2 in Hi.
  - by rewrite (proj2 (getCurrentDay_index now)).
Qed.

End TodayFacts.

Lemma weeklyVacuumSchedule_full : fullRotation weeklyVacuumSchedule.
Proof.
  intros weekNum Hw.
  assert (Hcases : weekNum = 1 \/ weekNum = 2 \/ weekNum = 3 \/ weekNum = 4
                   \/ weekNum = 5 \/ weekNum = 6 \/ weekNum = 7 \/ weekNum = 8
                   \/ weekNum = 9 \/ weekNum = 10 \/ weekNum = 11 \/ weekNum = 12) by lia.
  destruct Hcases as [-> | [-> | [-> | [-> | [-> | [-> | [-> | [-> | [-> | [-> | [-> | ->]]]]]]]]]]];
    by eexists.
Qed.

Lemma X18_missing_week_throws_witness :
  (exists daily total,
     renderTodaysTasks utcHost (Some vacuumSchedule) (monday_week1 + 7 * MS_PER_DAY)
     = TypeErrorAfterDaily daily total)
  /\ exists daily total focus,
       renderTodaysTasks utcHost (Some weeklyVacuumSchedule) (monday_week1 + 7 * MS_PER_DAY)
       = Rendered daily total focus.
Proof.
  split.
  - apply (proj1 (X18_missing_week_throws utcHost vacuumSchedule (monday_week1 + 7 * MS_PER_DAY))).
    reflexivity.
  - apply (proj2 (X18_missing_week_throws utcHost weeklyVacuumSchedule
                    (monday_week1 + 7 * MS_PER_DAY))).
    apply weeklyVacuumSchedule_full.
Defined.

Lemma X19_focus_tasks_indexed_witness :
  Weekly 1 "Monday" 1 ∈ findTaskOccurrences (Some vacuumSchedule) "Vacuum".
Proof.
  apply (X19_focus_tasks_indexed utcHost vacuumSchedule monday_week1
           [{| taskId := "daily-0"; shown := wipe_counters |}]
           [{| taskId := "focus-week1-Monday-0"; shown := vacuum |}] 5 20 25
           {| taskId := "focus-week1-Monday-0"; shown := vacuum |}).
  - reflexivity.
  - apply list_elem_of_here.
  - intros t Ht. simpl in Ht. apply list_elem_of_singleton in Ht. subst t. discriminate.
Defined.

(** ** The change listener of a checkbox *)

Section ChangeFacts.
Context (host : Host).

Lemma saveTaskStates_Ok now w :
  exists w1, saveTaskStates host now w = Ok w1
    /\ checkboxes w1 = checkboxes w
    /\ statesPersisted host w1 (toDateString host now)
         {| date := toDateString host now; tasks := collectStates (checkboxes w) |}
    /\ forall history, historyPersisted host w history -> historyPersisted host w1 history.
Proof.
  unfold saveTaskStates, statesPersisted, historyPersisted; cbv zeta.
  destruct (db w) as [fs |] eqn:Hdb; [destruct (online fs) eqn:Hon |];
    eexists; (split; [reflexivity |]); simpl; rewrite ?Hdb, ?Hon; simpl.
  - split; [done |]. split; [apply lookup_insert_eq | done].
  - split; [done |]. split; [apply lookup_insert_eq |].
    intros history H. by rewrite lookup_insert_ne.
  - split; [done |]. split; [apply lookup_insert_eq |].
    intros history H. by rewrite lookup_insert_ne.
Qed.

(** X20: when the history cannot be read, ticking a task fails with the
    error of that read, and the checkbox states are not saved either;
    unticking a task does not read the history: it saves the states and
    leaves the history as it was. *)
Theorem X20_change_and_history (now : Z) (task : Task.t) (w : World) :
  (forall e, getTaskHistory host w = Throw e ->
             onCheckboxChange host now task true w = Throw e)
  /\ exists w', onCheckboxChange host now task false w = Ok w'
                /\ saveTaskStates host now w = Ok w'
                /\ getTaskHistory host w' = getTaskHistory host w.
Proof.
  split.
  - intros e Hget. unfold onCheckboxChange, recordTaskCompletion.
    by rewrite Hget.
  - unfold onCheckboxChange.
    destruct (saveTaskStates_Ok now w) as (w1 & Hsave & _).
    exists w1. split; [done |]. split; [done |].
    unfold saveTaskStates in Hsave; cbv zeta in Hsave. unfold getTaskHistory.
    destruct (db w) as [fs |] eqn:Hdb; [destruct (online fs) eqn:Hon |];
      injection Hsave as <-; simpl; rewrite ?Hdb, ?Hon; simpl; [done | |];
      unfold localHistory, getItem; simpl; by rewrite lookup_insert_ne.
Qed.


End ChangeFacts.


(** ** The elements of the history view *)

Lemma length_append (a b : string) :
  String.length (a +:+ b) = (String.length a + String.length b)%nat.
Proof. induction a as [| c a IH]; simpl; [done | by rewrite IH]. Qed.

Lemma daysAgoText_today diffDays : daysAgoText diffDays = "(Today)" <-> diffDays = 0.
Proof.
  unfold daysAgoText. case_bool_decide as H0; [done |].
  case_bool_decide as H1; [split; [discriminate | lia] |].
  split; [| done]. intros Heq. apply (f_equal String.length) in Heq.
  rewrite !length_append in Heq. simpl in Heq. lia.
Qed.

(** X22: for a completion recorded at [now0] and looked at from then on,
    the label of the history view counts the days between the two UTC
    dates, and reads [(Today)] exactly on the UTC day of the recording. *)
Theorem X22_days_ago (now0 now : Z) :
  now0 <= now ->
  daysAgo now (toISODate now0) = toISODate now - toISODate now0
  /\ (daysAgoText (daysAgo now (toISODate now0)) = "(Today)"
      <-> toISODate now = toISODate now0).
Proof.
  intros Hle.
  assert (Hdays : daysAgo now (toISODate now0) = toISODate now - toISODate now0).
  { unfold daysAgo, Date_ofISO, toISODate; cbv zeta.
    pose proof (Z.div_mod now0 MS_PER_DAY ltac:(discriminate)).
    pose proof (Z.mod_pos_bound now0 MS_PER_DAY ltac:(reflexivity)).
    rewrite Z.abs_eq by lia.
    replace (now - now0 `div` MS_PER_DAY * MS_PER_DAY)
      with (now + (- (now0 `div` MS_PER_DAY)) * MS_PER_DAY) by lia.
    rewrite Z.div_add by discriminate. lia. }
  split; [exact Hdays |]. rewrite daysAgoText_today, Hdays. lia.
Qed.

Lemma X22_days_ago_witness :
  daysAgo noon_25_mar (toISODate monday_week1) = 84.
Proof.
  rewrite (proj1 (X22_days_ago monday_week1 noon_25_mar ltac:(vm_compute; discriminate))).
  reflexivity.
Defined.

Section HistoryElementFacts.
Context (host : Host).

Lemma overdue_without_completion schedule now task :
  Item.lastCompleted task = None ->
  overdue (getNextScheduledDate host schedule now task) = false.
Proof.
  intros Hlc. unfold getNextScheduledDate; cbv zeta. rewrite Hlc.
  destruct (findTaskOccurrences schedule (Item.name task)) as [| [f | w d dow] occs];
    [done | done |]. apply overdue_formatNext.
Qed.

(** X23: the line with the next date carries the class
    [next-scheduled overdue] exactly when [getNextScheduledDate] reports the
    task overdue; no other line ever carries it. *)
Theorem X23_overdue_class (schedule : option Schedule) (now : Z) (task : Item.t)
    (line : string) :
  ("next-scheduled overdue", line)
  ∈ taskDate (createHistoryTaskElement host schedule now task)
  <-> overdue (getNextScheduledDate host schedule now task) = true
      /\ line = "Next: " +:+ text (getNextScheduledDate host schedule now task).
Proof.
  unfold createHistoryTaskElement; simpl.
  destruct (Item.lastCompleted task) as [lc |] eqn:Hlc; cbv zeta.
  - rewrite !elem_of_cons, elem_of_nil.
    destruct (overdue (getNextScheduledDate host schedule now task)).
    + split; [| intros [_ ->]; tauto].
      intros [[= ] | [[= ] | [[= ->] | []]]]. done.
    + split; [| by intros [? _]].
      by intros [[= ] | [[= ] | [[= ] | []]]].
  - rewrite (overdue_without_completion schedule now task Hlc).
    rewrite !elem_of_cons, elem_of_nil.
    split; [| by intros [? _]]. by intros [[= ] | [[= ] | []]].
Qed.

End HistoryElementFacts.

(** ** Remote updates *)

Lemma checkedOf_overwritten taskId (tasks : gmap string bool) (cbs : list (string * bool)) :
  checkedOf taskId (overwritten tasks cbs)
  = (fun c => default c (tasks !! taskId)) <$> checkedOf taskId cbs.
Proof.
  induction cbs as [| [i c] cbs IH]; [done |].
  rewrite overwritten_cons. simpl. case_bool_decide; [by subst | done].
Qed.

Lemma setChecked_same taskId v (cbs : list (string * bool)) :
  checkedOf taskId cbs = Some v -> setChecked taskId v cbs = cbs.
Proof.
  induction cbs as [| [i c] cbs IH]; simpl; [done |].
  case_bool_decide as Hi; [by intros [= ->] |]. intros Hc. by rewrite IH.
Qed.

(** With distinct ids the loop of the listener writes the values of the
    document over the checkboxes and raises [hasUpdates] exactly when that
    changes one of them. *)
Lemma snapshot_loop (tasks : gmap string bool) (cbs : list (string * bool)) :
  NoDup cbs.*1 ->
  map_fold snapshotStep (cbs, false) tasks
  = (overwritten tasks cbs, bool_decide (overwritten tasks cbs <> cbs)).
Proof.
  intros Hnd.
  pose (P := fun (r : list (string * bool) * bool) (m : gmap string bool) =>
               r = (overwritten m cbs, bool_decide (overwritten m cbs <> cbs))).
  apply (map_fold_weak_ind P); subst P; cbv beta.
  - rewrite overwritten_empty. by rewrite bool_decide_eq_false_2 by (by intros []).
  - intros i x m r Hfresh ->. unfold snapshotStep; simpl.
    rewrite checkedOf_overwritten, Hfresh.
    destruct (checkedOf i cbs) as [c |] eqn:Hc; simpl.
    + case_bool_decide as Hcx.
      * rewrite setChecked_overwritten by done. f_equal. symmetry.
        apply bool_decide_eq_true_2. intros Heq.
        apply (f_equal (checkedOf i)) in Heq.
        rewrite checkedOf_overwritten, Hc, lookup_insert_eq in Heq. simpl in Heq.
        congruence.
      * assert (c = x) as -> by (by destruct (decide (c = x))).
        assert (Hsame : overwritten (<[i := x]> m) cbs = overwritten m cbs).
        { rewrite <- setChecked_overwritten by done. apply setChecked_same.
          by rewrite checkedOf_overwritten, Hc, Hfresh. }
        by rewrite Hsame.
    + apply checkedOf_None in Hc. by rewrite overwritten_insert_fresh.
Qed.

(** X24: on a page with distinct checkbox ids, a snapshot of today's
    document whose keys are fit for a selector leaves the page as
    [loadTaskStates] would with that document, writes to no store, and
    shows the toast exactly when it is not the first snapshot and some
    checkbox changed. *)
Theorem X24_snapshot_applies (data : StateDoc) (isFirstSnapshot : bool) (w : World) :
  NoDup (checkboxes w).*1 ->
  (forall key, is_Some (tasks data !! key) -> selectorSafe key) ->
  onTaskStatesSnapshot (Some data) isFirstSnapshot w
  = {| page := applyStates data w;
       firstSnapshot := false;
       toast := negb isFirstSnapshot
                && bool_decide (checkboxes (applyStates data w) <> checkboxes w) |}
  /\ db (applyStates data w) = db w
  /\ localStorage (applyStates data w) = localStorage w.
Proof.
  intros Hnd _. unfold onTaskStatesSnapshot.
  rewrite snapshot_loop by done. by rewrite applyStates_overwritten.
Qed.

Section EchoFacts.
Context (host : Host).

(** X25: the snapshot of a document this page has just saved changes
    nothing and shows no toast, first snapshot or not. *)
Theorem X25_own_write_is_silent (now : Z) (isFirstSnapshot : bool) (w w1 : World) :
  NoDup (checkboxes w).*1 ->
  saveTaskStates host now w = Ok w1 ->
  onTaskStatesSnapshot
    (Some {| date := toDateString host now; tasks := collectStates (checkboxes w) |})
    isFirstSnapshot w1
  = {| page := w1; firstSnapshot := false; toast := false |}.
Proof.
  intros Hnd Hsave.
  destruct (saveTaskStates_Ok host now w) as (w1' & Hsave' & Hcb & _).
  assert (w1' = w1) as -> by congruence.
  unfold onTaskStatesSnapshot; simpl. rewrite Hcb, snapshot_loop by done.
  rewrite overwritten_collectStates by done.
  rewrite bool_decide_eq_false_2 by (by intros []).
  rewrite andb_false_r, <- Hcb. by rewrite with_checkboxes_same.
Qed.

End EchoFacts.

Lemma dustWorld_ids : NoDup (checkboxes dustWorld).*1.
Proof.
  simpl. apply NoDup_cons. split.
  - intros Hin. apply list_elem_of_singleton in Hin. discriminate.
  - apply NoDup_singleton.
Qed.

Lemma X20_change_and_history_witness :
  onCheckboxChange utcHost monday_week1 vacuum true brokenWorld = Throw SyntaxError.
Proof.
  apply (proj1 (X20_change_and_history utcHost monday_week1 vacuum brokenWorld)).
  reflexivity.
Defined.

Lemma X24_snapshot_applies_witness :
  toast (onTaskStatesSnapshot (Some staleDoc) false dustWorld) = false
  /\ toast (onTaskStatesSnapshot
              (Some {| date := "Mon Jan 01 2024"; tasks := {[ "daily-0" := false ]} |})
              false dustWorld) = true.
Proof.
  assert (Hkey : forall (v : bool) key,
            is_Some (({[ "daily-0" := v ]} : gmap string bool) !! key) ->
            selectorSafe key).
  { intros v key [b Hb]. apply lookup_singleton_Some in Hb as [<- _]. reflexivity. }
  split.
  - rewrite (proj1 (X24_snapshot_applies staleDoc false dustWorld dustWorld_ids
                      (Hkey true))).
    vm_compute. reflexivity.
  - rewrite (proj1 (X24_snapshot_applies
                      {| date := "Mon Jan 01 2024"; tasks := {[ "daily-0" := false ]} |}
                      false dustWorld dustWorld_ids (Hkey false))).
    vm_compute. reflexivity.
Defined.

Lemma X25_own_write_is_silent_witness :
  exists w1,
    saveTaskStates utcHost monday_week1 dustWorld = Ok w1
    /\ onTaskStatesSnapshot
         (Some {| date := toDateString utcHost monday_week1;
                  tasks := collectStates (checkboxes dustWorld) |}) false w1
       = {| page := w1; firstSnapshot := false; toast := false |}.
Proof.
  eexists. split; [reflexivity |].
  apply (X25_own_write_is_silent utcHost monday_week1 false dustWorld).
  - apply dustWorld_ids.
  - reflexivity.
Defined.

(** ** A completion just recorded, and the weekly view *)

Section FreshFacts.
Context (host : Host).

Lemma Math_round_div_nonneg a b : 0 <= a -> 0 <= b -> 0 <= Math_round_div a b.
Proof.
  intros Ha Hb. unfold Math_round_div.
  destruct (decide (b = 0)) as [-> | Hne].
  - by rewrite Z.mul_0_r, Z.div_0_r.
  - apply Z.div_pos; lia.
Qed.

(** The days since a completion recorded at [now], seen at [now'], exceed
    the difference of the two UTC dates by one at most. *)
Lemma daysSinceCompletion_fresh now now' :
  daysSinceCompletion host (setHours0 host now') (toISODate now)
  <= toISODate now' - toISODate now + 1.
Proof.
  rewrite daysSinceCompletion_days. unfold Date_ofISO, toISODate.
  pose proof (Z.div_mod now' MS_PER_DAY ltac:(discriminate)) as Hn'.
  pose proof (Z.mod_pos_bound now' MS_PER_DAY ltac:(reflexivity)).
  set (d := now `div` MS_PER_DAY) in *. set (d' := now' `div` MS_PER_DAY) in *.
  assert (Hup : (now' + tzOffset host) `div` MS_PER_DAY
                <= (d * MS_PER_DAY + tzOffset host + (d' - d + 1) * MS_PER_DAY) `div` MS_PER_DAY)
    by (apply Z.div_le_mono; [reflexivity | lia]).
  rewrite Z.div_add in Hup by discriminate. lia.
Qed.

(** X26: a task whose completion has just been recorded is not shown
    overdue on that UTC day or the two after it, whatever the time zone
    and the schedule, and on the UTC day of the recording its days-ago
    line reads [(Today)]. *)
Theorem X26_fresh_completion (schedule : option Schedule) (now now' : Z)
    (history : gmap string Entry.t) (name taskLocation : string) (task : Task.t) :
  history !! name
  = Some {| Entry.location := taskLocation; Entry.lastCompleted := toISODate now |} ->
  now <= now' ->
  toISODate now' - toISODate now <= 2 ->
  overdue (getNextScheduledDate host schedule now' (historyItem history name task)) = false
  /\ (toISODate now' = toISODate now ->
      ("days-ago", "(Today)")
      ∈ taskDate (createHistoryTaskElement host schedule now' (historyItem history name task))).
Proof.
  intros Hentry Hle Hdays. split.
  - unfold getNextScheduledDate; cbv zeta.
    destruct (findTaskOccurrences schedule (Item.name (historyItem history name task)))
      as [| [f | w d dow] occs].
    + by destruct (Item.lastCompleted (historyItem history name task)).
    + done.
    + rewrite overdue_formatNext. unfold historyItem at 1; simpl. rewrite Hentry; simpl.
      apply bool_decide_eq_false_2.
      pose proof (daysSinceCompletion_fresh now now').
      pose proof (Math_round_div_nonneg (12 * 7)
                    (Z.of_nat (length (Weekly w d dow :: occs))) ltac:(lia) ltac:(lia)).
      unfold expectedFrequencyDays. lia.
  - intros Hsame. unfold createHistoryTaskElement, historyItem; simpl.
    rewrite Hentry; simpl.
    assert (Htoday : daysAgoText (daysAgo now' (toISODate now)) = "(Today)").
    { apply daysAgoText_today.
      unfold daysAgo, Date_ofISO, toISODate in *; cbv zeta.
      pose proof (Z.div_mod now MS_PER_DAY ltac:(discriminate)).
      pose proof (Z.mod_pos_bound now MS_PER_DAY ltac:(reflexivity)).
      pose proof (Z.div_mod now' MS_PER_DAY ltac:(discriminate)).
      pose proof (Z.mod_pos_bound now' MS_PER_DAY ltac:(reflexivity)).
      rewrite Z.abs_eq by lia. apply Z.div_small. lia. }
    rewrite Htoday. apply list_elem_of_further, list_elem_of_here.
Qed.

Lemma shown_imap (mk : nat -> string) (l : list Task.t) :
  shown <$> imap (fun index task => {| taskId := mk index; shown := task |}) l = l.
Proof.
  apply list_eq. intros i. rewrite list_lookup_fmap, list_lookup_imap.
  by destruct (l !! i).
Qed.

Lemma foldl_minutes (tasks : list Task.t) (start : Z) :
  foldl (fun total task => total + minutesOf task) start tasks
  = start + totalMinutes tasks.
Proof.
  unfold totalMinutes. revert start.
  induction tasks as [| t tasks IH]; intros start; simpl; [lia |].
  rewrite IH, (IH (0 + minutesOf t)). lia.
Qed.

(** X27: when the weekly view renders, it has the seven columns from
    Monday to Sunday, marks as today exactly the column of the current
    day, and shows in that column the focus tasks and the total of minutes
    that today's view shows. *)
Theorem X27_weekly_view_today (schedule : Schedule) (now : Z) (columns : list DayColumn) :
  renderWeeklyView host (Some schedule) now = WeekRendered columns ->
  columnDay <$> columns = weekDays
  /\ (forall column, column ∈ columns ->
        (markedToday column = true <-> columnDay column = getCurrentDay host now))
  /\ exists column,
       column ∈ columns
       /\ markedToday column = true
       /\ match renderTodaysTasks host (Some schedule) now with
          | Rendered _ dailyTotal (FocusTasks elements _ grandTotal) =>
              columnFocus column = shown <$> elements /\ columnTotal column = grandTotal
          | Rendered _ dailyTotal NoFocusTasks =>
              columnFocus column = [] /\ columnTotal column = dailyTotal
          | _ => False
          end.
Proof.
  unfold renderWeeklyView, renderTodaysTasks; cbv zeta.
  destruct (twelve_week_schedule schedule !! ("week_" +:+ pretty (getCurrentWeekInCycle now)))
    as [week |]; [| done].
  intros Heq.
  match type of Heq with
  | WeekRendered ?c = _ => assert (columns = c) as -> by congruence
  end.
  clear Heq. split; [| split].
  - reflexivity.
  - intros column (day & -> & _)%list_elem_of_fmap. simpl.
    apply bool_decide_eq_true.
  - eexists. split; [| split].
    + apply list_elem_of_fmap. exists (getCurrentDay host now). split; [reflexivity |].
      pose proof (getCurrentDay_index host now) as [Hlookup _].
      pose proof (getDay_range host now) as Hg.
      assert (Hcases : getDay host now = 0 \/ getDay host now = 1 \/ getDay host now = 2
                       \/ getDay host now = 3 \/ getDay host now = 4
                       \/ getDay host now = 5 \/ getDay host now = 6) by lia.
      unfold weekDays.
      destruct Hcases as [Hc | [Hc | [Hc | [Hc | [Hc | [Hc | Hc]]]]]];
        rewrite Hc in Hlookup; injection Hlookup as <-;
        repeat first [apply list_elem_of_here | apply list_elem_of_further].
    + simpl. by apply bool_decide_eq_true.
    + simpl. rewrite !foldl_minutes.
      destruct (propertyOf week (getCurrentDay host now)) as [[| task tasks] |]; simpl.
      * unfold totalMinutes at 2; simpl. split; [done | lia].
      * split; [| done]. symmetry. apply (shown_imap _ (task :: tasks)).
      * unfold totalMinutes at 2; simpl. split; [done | lia].
Qed.

End FreshFacts.

Lemma X26_fresh_completion_witness :
  overdue (getNextScheduledDate utcHost (Some singleSchedule)
             (monday_week1 + 2 * MS_PER_DAY)
             (historyItem {[ "Vacuum" := {| Entry.location := "Living Room";
                                            Entry.lastCompleted := toISODate monday_week1 |} ]}
                          "Vacuum" vacuum)) = false.
Proof.
  apply (X26_fresh_completion utcHost (Some singleSchedule) monday_week1
           (monday_week1 + 2 * MS_PER_DAY) _ "Vacuum" "Living Room" vacuum).
  - reflexivity.
  - vm_compute. discriminate.
  - vm_compute. discriminate.
Defined.

Lemma X27_weekly_view_today_witness :
  exists columns,
    renderWeeklyView utcHost (Some vacuumSchedule) monday_week1 = WeekRendered columns
    /\ columnDay <$> columns = weekDays.
Proof.
  eexists. split; [reflexivity |].
  eapply (X27_weekly_view_today utcHost vacuumSchedule monday_week1). reflexivity.
Defined.

(** * The wall clock of a time zone *)

Lemma fixedZone_laws (tz : Z) : ZoneLaws (fixedZone tz).
Proof.
  split; simpl.
  - intros l. lia.
  - intros l. f_equal. lia.
  - intros l. lia.
  - intros a b Hle. apply Z.div_le_mono; [reflexivity | lia].
Qed.

Lemma fixedZone_drift (tz : Z) : driftBound (fixedZone tz) 0.
Proof. intros t k. simpl. lia. Qed.

Ltac london_cases :=
  unfold london2024, BST_START, BST_END, MS_PER_HOUR, MS_PER_DAY; simpl;
  repeat case_bool_decide.

Lemma london2024_laws : ZoneLaws london2024.
Proof.
  split.
  - intros l. london_cases; lia.
  - intros l. london_cases; Z.div_mod_to_equations; lia.
  - intros l. london_cases; lia.
  - intros a b Hle. london_cases; Z.div_mod_to_equations; lia.
Qed.

Lemma london2024_drift : driftBound london2024 MS_PER_HOUR.
Proof. intros t k. london_cases; lia. Qed.

(** On a zone with one offset the wall-clock arithmetic is the arithmetic
    of [setHours0], [getDay] and [addDays] above. *)
Lemma Wall_setHours0_fixed host t :
  Wall.setHours0 (fixedZone (tzOffset host)) t = setHours0 host t.
Proof.
  unfold Wall.setHours0, setHours0; simpl.
  pose proof (Z.div_mod (t + tzOffset host) MS_PER_DAY ltac:(discriminate)). lia.
Qed.

Lemma Wall_addDays_fixed tz t k : Wall.addDays (fixedZone tz) t k = addDays t k.
Proof. unfold Wall.addDays, addDays; simpl. lia. Qed.

Lemma Wall_nextOccurrence_fixed host today currentWeek occ :
  Wall.nextOccurrence (fixedZone (tzOffset host)) today currentWeek occ
  = nextOccurrence host today currentWeek occ.
Proof.
  destruct occ as [f | week dayName dayOfWeek]; [done |].
  unfold Wall.nextOccurrence, nextOccurrence; cbv zeta.
  rewrite !Wall_addDays_fixed. reflexivity.
Qed.

Lemma Wall_getNextScheduledDate_fixed host schedule now task :
  Wall.getNextScheduledDate (fixedZone (tzOffset host)) host schedule now task
  = getNextScheduledDate host schedule now task.
Proof.
  unfold Wall.getNextScheduledDate, getNextScheduledDate; cbv zeta.
  unfold Wall.nextOccurrences, nextOccurrences, Wall.daysSinceCompletion,
    daysSinceCompletion; cbv zeta.
  rewrite !Wall_setHours0_fixed, Wall_addDays_fixed.
  destruct (findTaskOccurrences schedule (Item.name task)) as [| [f | w d dow] occs];
    [done | done |].
  rewrite (map_ext _ _ (Wall_nextOccurrence_fixed host (setHours0 host now)
                          (getCurrentWeekInCycle now))).
  destruct (Item.lastCompleted task) as [lastCompleted |]; [| done].
  by rewrite Wall_setHours0_fixed.
Qed.

Section WallFacts.
Context (zone : Zone) (laws : ZoneLaws zone).

Lemma day_setHours0 now :
  LocalTime zone (Wall.setHours0 zone now) `div` MS_PER_DAY
  = LocalTime zone now `div` MS_PER_DAY.
Proof.
  unfold Wall.setHours0. rewrite (wall_same_day zone laws).
  apply Z.div_mul. discriminate.
Qed.

Lemma day_addDays t k :
  LocalTime zone (Wall.addDays zone t k) `div` MS_PER_DAY
  = LocalTime zone t `div` MS_PER_DAY + k.
Proof.
  unfold Wall.addDays. rewrite (wall_same_day zone laws).
  apply Z.div_add. discriminate.
Qed.

Lemma wall_addDays t k :
  LocalTime zone t + k * MS_PER_DAY <= LocalTime zone (Wall.addDays zone t k).
Proof. apply (wall_forward zone laws). Qed.

Lemma later_day a b :
  LocalTime zone a `div` MS_PER_DAY < LocalTime zone b `div` MS_PER_DAY -> a < b.
Proof.
  intros Hlt. destruct (Z.le_gt_cases b a) as [Hle | Hgt]; [| lia].
  apply (day_monotone zone laws) in Hle. lia.
Qed.

Lemma addDays_0_setHours0 now :
  Wall.addDays zone (Wall.setHours0 zone now) 0 = Wall.setHours0 zone now.
Proof.
  unfold Wall.addDays, Wall.setHours0. rewrite Z.mul_0_l, Z.add_0_r.
  apply (wall_settled zone laws).
Qed.

(** The date pushed for a slot with a proper day index falls on a later
    calendar day than today, and its wall clock is at least that many whole
    days ahead of the wall clock of today's midnight. *)
Lemma Wall_nextOccurrence_later now currentWeek week dayName dayOfWeek :
  0 <= dayOfWeek <= 6 ->
  exists k, 1 <= k
    /\ LocalTime zone
         (Wall.nextOccurrence zone (Wall.setHours0 zone now) currentWeek
            (Weekly week dayName dayOfWeek)) `div` MS_PER_DAY
       = LocalTime zone (Wall.setHours0 zone now) `div` MS_PER_DAY + k
    /\ LocalTime zone (Wall.setHours0 zone now) + k * MS_PER_DAY
       <= LocalTime zone
            (Wall.nextOccurrence zone (Wall.setHours0 zone now) currentWeek
               (Weekly week dayName dayOfWeek)).
Proof.
  intros Hdow. unfold Wall.nextOccurrence; cbv zeta.
  set (today := Wall.setHours0 zone now).
  assert (Hg : 0 <= Wall.getDay zone today <= 6).
  { unfold Wall.getDay.
    pose proof (Z.mod_pos_bound (LocalTime zone today `div` MS_PER_DAY + 4) 7). lia. }
  set (g := Wall.getDay zone today) in *.
  set (r := Z.rem (week - currentWeek + 12) 12).
  pose proof (day_addDays today (- g + dayOfWeek)) as Hd1.
  pose proof (wall_addDays today (- g + dayOfWeek)) as Hf1.
  set (c1 := Wall.addDays zone today (- g + dayOfWeek)) in *.
  assert (Hfirst : exists k, 1 <= k
            /\ LocalTime zone (if bool_decide (c1 <= today)
                               then Wall.addDays zone c1 7 else c1) `div` MS_PER_DAY
               = LocalTime zone today `div` MS_PER_DAY + k
            /\ LocalTime zone today + k * MS_PER_DAY
               <= LocalTime zone (if bool_decide (c1 <= today)
                                  then Wall.addDays zone c1 7 else c1)).
  { destruct (bool_decide_reflect (c1 <= today)) as [Hle | Hgt].
    - exists (- g + dayOfWeek + 7).
      pose proof (day_addDays c1 7). pose proof (wall_addDays c1 7).
      unfold MS_PER_DAY in *. lia.
    - exists (- g + dayOfWeek).
      assert (1 <= - g + dayOfWeek).
      { destruct (Z.lt_trichotomy (- g + dayOfWeek) 0) as [Hneg | [Hzero | Hpos]];
          [| | lia].
        - assert (c1 < today) by (apply later_day; lia). lia.
        - subst c1. rewrite Hzero in Hgt. subst today.
          rewrite addDays_0_setHours0 in Hgt. lia. }
      unfold MS_PER_DAY in *. lia. }
  destruct Hfirst as (k & Hk & Hday & Hwall).
  set (c := if bool_decide (c1 <= today) then Wall.addDays zone c1 7 else c1) in *.
  destruct (bool_decide_reflect (r > 0)) as [Hr | Hr].
  - exists (k + r * 7).
    pose proof (day_addDays c (r * 7)). pose proof (wall_addDays c (r * 7)).
    unfold MS_PER_DAY in *. lia.
  - exists k. done.
Qed.

End WallFacts.

Section WallWeekly.
Context (zone : Zone) (host : Host).

(** On the weekly path the result is the formatted least candidate. *)
Lemma Wall_getNextScheduledDate_weekly schedule now task :
  let occurrences := findTaskOccurrences schedule (Item.name task) in
  let today := Wall.setHours0 zone now in
  occurrences <> [] ->
  (forall frequency, Daily frequency ∉ occurrences) ->
  exists nextDate,
    head (Wall.nextOccurrences zone now occurrences) = Some nextDate
    /\ nextDate ∈ map (Wall.nextOccurrence zone today (getCurrentWeekInCycle now)) occurrences
    /\ Forall (Z.le nextDate)
         (map (Wall.nextOccurrence zone today (getCurrentWeekInCycle now)) occurrences)
    /\ Wall.getNextScheduledDate zone host schedule now task
       = formatNext host today nextDate
           match Item.lastCompleted task with
           | Some lastCompleted =>
               bool_decide (Wall.daysSinceCompletion zone today lastCompleted
                            > expectedFrequencyDays occurrences + 3)
           | None => false
           end.
Proof.
  intros occurrences today Hne Hweekly.
  destruct (head_merge_sort
              (map (Wall.nextOccurrence zone today (getCurrentWeekInCycle now)) occurrences))
    as (x & Hhead & Hin & Hmin).
  { destruct occurrences; [done | discriminate]. }
  exists x. split; [done |]. split; [done |]. split; [done |].
  unfold Wall.getNextScheduledDate; cbv zeta. fold occurrences. fold today.
  destruct occurrences as [| [frequency | week dayName dayOfWeek] occs] eqn:E; [done | |].
  - destruct (Hweekly frequency). apply list_elem_of_here.
  - unfold Wall.nextOccurrences; cbv zeta. fold today. by rewrite Hhead.
Qed.

(** The nearest integer to [84 / n], a half going up. *)
Lemma Math_round_div_nearest (n : Z) :
  0 < n ->
  (2 * Math_round_div (12 * 7) n - 1) * n <= 2 * 84
  /\ 2 * 84 < (2 * Math_round_div (12 * 7) n + 1) * n.
Proof.
  intros Hn. unfold Math_round_div.
  pose proof (Z.mul_div_le (2 * (12 * 7) + n) (2 * n) ltac:(lia)).
  pose proof (Z.mul_succ_div_gt (2 * (12 * 7) + n) (2 * n) ltac:(lia)).
  set (e := (2 * (12 * 7) + n) `div` (2 * n)) in *. nia.
Qed.

(** On a zone keeping one offset from Greenwich eastwards, the days
    counted since a completion are the local date of [now] minus the
    recorded date. *)
Lemma Wall_daysSinceCompletion_east tz now lastCompleted :
  0 <= tz < MS_PER_DAY ->
  (forall t, LocalTime zone t = t + tz) ->
  (forall l, UTC zone l = l - tz) ->
  Wall.daysSinceCompletion zone (Wall.setHours0 zone now) lastCompleted
  = (now + tz) `div` MS_PER_DAY - lastCompleted.
Proof.
  intros Htz Hlocal Hutc.
  unfold Wall.daysSinceCompletion, Wall.setHours0, Date_ofISO; cbv zeta.
  rewrite !Hutc, !Hlocal.
  replace (lastCompleted * MS_PER_DAY + tz) with (tz + lastCompleted * MS_PER_DAY) by lia.
  rewrite (Z.div_add tz) by discriminate.
  rewrite (Z.div_small tz) by done.
  replace ((now + tz) `div` MS_PER_DAY * MS_PER_DAY - tz
           - ((0 + lastCompleted) * MS_PER_DAY - tz))
    with (((now + tz) `div` MS_PER_DAY - lastCompleted) * MS_PER_DAY) by lia.
  apply Z.div_mul. discriminate.
Qed.

(** West of Greenwich the recorded date, read as UTC midnight, falls on
    the evening before: one day more is counted. *)
Lemma Wall_daysSinceCompletion_west tz now lastCompleted :
  - MS_PER_DAY < tz < 0 ->
  (forall t, LocalTime zone t = t + tz) ->
  (forall l, UTC zone l = l - tz) ->
  Wall.daysSinceCompletion zone (Wall.setHours0 zone now) lastCompleted
  = (now + tz) `div` MS_PER_DAY - lastCompleted + 1.
Proof.
  intros Htz Hlocal Hutc.
  unfold Wall.daysSinceCompletion, Wall.setHours0, Date_ofISO; cbv zeta.
  rewrite !Hutc, !Hlocal.
  replace (lastCompleted * MS_PER_DAY + tz)
    with (tz + MS_PER_DAY + (lastCompleted - 1) * MS_PER_DAY) by lia.
  rewrite (Z.div_add (tz + MS_PER_DAY)) by discriminate.
  rewrite (Z.div_small (tz + MS_PER_DAY)) by lia.
  replace ((now + tz) `div` MS_PER_DAY * MS_PER_DAY - tz
           - ((0 + (lastCompleted - 1)) * MS_PER_DAY - tz))
    with (((now + tz) `div` MS_PER_DAY - lastCompleted + 1) * MS_PER_DAY) by lia.
  apply Z.div_mul. discriminate.
Qed.

(** C3, amended: on the weekly path with a recorded completion the task
    is overdue exactly when the days counted since the completion exceed
    [Math.round (84 / occurrences.length) + 3], the rounding being to the
    nearest integer; with one occurrence that interval is 84.  The days
    counted are whole days between two local midnights; on a zone keeping
    one offset from Greenwich eastwards they are the local date of today
    minus the recorded date, and there, with one occurrence, 87 days are not
    overdue and 88 days are; on a zone keeping one offset westwards they
    are one more than that difference of dates. *)
Theorem C3_overdue_threshold (schedule : option Schedule) (now : Z)
    (task : Item.t) (lastCompleted : Z) :
  let occurrences := findTaskOccurrences schedule (Item.name task) in
  let today := Wall.setHours0 zone now in
  let n := Z.of_nat (length occurrences) in
  let expected := expectedFrequencyDays occurrences in
  let result := Wall.getNextScheduledDate zone host schedule now task in
  occurrences <> [] ->
  (forall frequency, Daily frequency ∉ occurrences) ->
  Item.lastCompleted task = Some lastCompleted ->
  (overdue result = true <->
   Wall.daysSinceCompletion zone today lastCompleted > expected + 3)
  /\ ((2 * expected - 1) * n <= 2 * 84 /\ 2 * 84 < (2 * expected + 1) * n)
  /\ (n = 1 -> expected = 84)
  /\ (forall tz,
        0 <= tz < MS_PER_DAY ->
        (forall t, LocalTime zone t = t + tz) ->
        (forall l, UTC zone l = l - tz) ->
        Wall.daysSinceCompletion zone today lastCompleted
        = (now + tz) `div` MS_PER_DAY - lastCompleted
        /\ (n = 1 -> (now + tz) `div` MS_PER_DAY - lastCompleted = 87 ->
            overdue result = false)
        /\ (n = 1 -> (now + tz) `div` MS_PER_DAY - lastCompleted = 88 ->
            overdue result = true))
  /\ (forall tz,
        - MS_PER_DAY < tz < 0 ->
        (forall t, LocalTime zone t = t + tz) ->
        (forall l, UTC zone l = l - tz) ->
        Wall.daysSinceCompletion zone today lastCompleted
        = (now + tz) `div` MS_PER_DAY - lastCompleted + 1).
Proof.
  intros occurrences today n expected result Hne Hweekly Hlc.
  assert (Hiff : overdue result = true <->
                 Wall.daysSinceCompletion zone today lastCompleted > expected + 3).
  { subst result.
    destruct (Wall_getNextScheduledDate_weekly schedule now task Hne Hweekly)
      as (nextDate & _ & _ & _ & ->).
    rewrite overdue_formatNext, Hlc. apply bool_decide_eq_true. }
  assert (Hn : 0 < n) by (subst n; destruct occurrences; [done | simpl; lia]).
  assert (Hone : n = 1 -> expected = 84).
  { intros H1. subst expected. unfold expectedFrequencyDays. fold occurrences. fold n.
    by rewrite H1. }
  split; [exact Hiff |]. split; [apply (Math_round_div_nearest n Hn) |].
  split; [exact Hone |]. split.
  - intros tz Htz Hlocal Hutc.
    pose proof (Wall_daysSinceCompletion_east tz now lastCompleted Htz Hlocal Hutc)
      as Hdays.
    fold today in Hdays. split; [exact Hdays |]. split.
    + intros H1 H87. apply not_true_is_false. rewrite Hiff, Hdays, H87, (Hone H1). lia.
    + intros H1 H88. apply Hiff. rewrite Hdays, H88, (Hone H1). lia.
  - intros tz Htz Hlocal Hutc.
    apply (Wall_daysSinceCompletion_west tz now lastCompleted Htz Hlocal Hutc).
Qed.

(** C8, amended: for a schedule with proper day names and a task whose
    occurrences are weekly and not empty, every candidate date is strictly
    after [today] and on a later calendar day, so is their minimum, the
    date shown; and when the offset from UTC is the same at that date as
    at today's midnight, the day difference is at least one and the test of
    the [Due today] branch fails. *)
Theorem C8_weekly_after_today (schedule : Schedule) (now : Z) (task : Item.t) :
  let occurrences := findTaskOccurrences (Some schedule) (Item.name task) in
  let today := Wall.setHours0 zone now in
  let candidates :=
    map (Wall.nextOccurrence zone today (getCurrentWeekInCycle now)) occurrences in
  ZoneLaws zone ->
  canonicalDays schedule ->
  occurrences <> [] ->
  (forall frequency, Daily frequency ∉ occurrences) ->
  Forall (fun d => today < d
                   /\ LocalTime zone today `div` MS_PER_DAY
                      < LocalTime zone d `div` MS_PER_DAY) candidates
  /\ exists nextDate isOverdue,
       head (Wall.nextOccurrences zone now occurrences) = Some nextDate
       /\ Forall (Z.le nextDate) candidates
       /\ today < nextDate
       /\ Wall.getNextScheduledDate zone host (Some schedule) now task
          = formatNext host today nextDate isOverdue
       /\ (LocalTime zone nextDate - nextDate = LocalTime zone today - today ->
           1 <= (nextDate - today) `div` MS_PER_DAY
           /\ bool_decide ((nextDate - today) `div` MS_PER_DAY = 0) = false).
Proof.
  intros occurrences today candidates Hlaws Hcanon Hne Hweekly.
  assert (Hdaily : hasTask (Item.name task) (daily_tasks schedule) = false).
  { destruct (hasTask (Item.name task) (daily_tasks schedule)) eqn:Hd; [| done].
    destruct (Hweekly "Daily"). subst occurrences.
    rewrite findTaskOccurrences_daily by done. apply list_elem_of_here. }
  assert (Hk : Forall (fun d => exists k, 1 <= k
                 /\ LocalTime zone d `div` MS_PER_DAY
                    = LocalTime zone today `div` MS_PER_DAY + k
                 /\ LocalTime zone today + k * MS_PER_DAY <= LocalTime zone d) candidates).
  { subst candidates. apply Forall_fmap, Forall_forall. intros occ Hocc. simpl.
    apply elem_of_rotation in Hocc; [| done].
    destruct Hocc as (w & week & d & ts & _ & Hweek & Hin & _ & ->).
    apply (Wall_nextOccurrence_later zone Hlaws), indexOf_daysOfWeek_range.
    by apply (Hcanon _ _ _ _ Hweek Hin). }
  assert (Hafter : forall d, (exists k, 1 <= k
                 /\ LocalTime zone d `div` MS_PER_DAY
                    = LocalTime zone today `div` MS_PER_DAY + k
                 /\ LocalTime zone today + k * MS_PER_DAY <= LocalTime zone d) ->
              today < d).
  { intros d (k & Hk1 & Hday & _). apply (later_day zone Hlaws). lia. }
  split.
  - eapply Forall_impl; [exact Hk |]. intros d Hd. split; [by apply Hafter |].
    destruct Hd as (k & Hk1 & Hday & _). lia.
  - destruct (Wall_getNextScheduledDate_weekly (Some schedule) now task Hne Hweekly)
      as (nextDate & Hhead & Hin & Hmin & Heq).
    fold occurrences in Hhead, Hin, Hmin. fold today in Hin, Hmin, Heq.
    fold candidates in Hin, Hmin.
    exists nextDate. eexists. split; [done |]. split; [done |].
    rewrite Forall_forall in Hk. pose proof (Hk _ Hin) as Hnext.
    split; [by apply Hafter |]. split; [exact Heq |].
    intros Hoffset. destruct Hnext as (k & Hk1 & _ & Hwall).
    assert (MS_PER_DAY <= nextDate - today) by (unfold MS_PER_DAY in *; lia).
    assert (1 <= (nextDate - today) `div` MS_PER_DAY).
    { replace 1 with (MS_PER_DAY `div` MS_PER_DAY) by reflexivity.
      apply Z.div_le_mono; [reflexivity | done]. }
    split; [done |]. apply bool_decide_eq_false. lia.
Qed.

End WallWeekly.

(** C3, as stated, fails: the days the code counts are not the days
    between the two dates.  Five hours west of Greenwich a task completed
    87 days before today's date, with one occurrence in the rotation, is
    already overdue; in London a task completed on 11 January is not yet
    overdue on 8 April, 88 days later, the clocks having gone forward in
    between. *)
Lemma C3_overdue_at_87_and_not_at_88 :
  (length (findTaskOccurrences (Some singleSchedule) "Vacuum") = 1%nat
   /\ LocalTime bogota noon_28_mar_bogota `div` MS_PER_DAY - 19723 = 87
   /\ toISODate noon_28_mar_bogota - 19723 = 87
   /\ overdue (Wall.getNextScheduledDate bogota utcHost (Some singleSchedule)
                 noon_28_mar_bogota vacuum_done_1_jan) = true)
  /\ (LocalTime london2024 noon_8_apr `div` MS_PER_DAY - (19723 + 10) = 88
      /\ toISODate noon_8_apr - (19723 + 10) = 88
      /\ overdue (Wall.getNextScheduledDate london2024 utcHost (Some singleSchedule)
                    noon_8_apr vacuum_done_11_jan) = false).
Proof. vm_compute. repeat split. Qed.

Lemma C3_overdue_threshold_witness :
  overdue (Wall.getNextScheduledDate (fixedZone 0) utcHost (Some singleSchedule)
             (monday_week1 + 87 * MS_PER_DAY) vacuum_done_1_jan) = false
  /\ overdue (Wall.getNextScheduledDate (fixedZone 0) utcHost (Some singleSchedule)
                (monday_week1 + 88 * MS_PER_DAY) vacuum_done_1_jan) = true.
Proof.
  split.
  - destruct (C3_overdue_threshold (fixedZone 0) utcHost (Some singleSchedule)
                (monday_week1 + 87 * MS_PER_DAY) vacuum_done_1_jan 19723)
      as (_ & _ & _ & H & _).
    + vm_compute. discriminate.
    + intros f Hin. vm_compute in Hin. apply list_elem_of_singleton in Hin. discriminate.
    + reflexivity.
    + destruct (H 0) as (_ & H87 & _).
      * vm_compute. split; [discriminate | reflexivity].
      * intros t. reflexivity.
      * intros l. reflexivity.
      * apply H87; reflexivity.
  - destruct (C3_overdue_threshold (fixedZone 0) utcHost (Some singleSchedule)
                (monday_week1 + 88 * MS_PER_DAY) vacuum_done_1_jan 19723)
      as (_ & _ & _ & H & _).
    + vm_compute. discriminate.
    + intros f Hin. vm_compute in Hin. apply list_elem_of_singleton in Hin. discriminate.
    + reflexivity.
    + destruct (H 0) as (_ & _ & H88).
      * vm_compute. split; [discriminate | reflexivity].
      * intros t. reflexivity.
      * intros l. reflexivity.
      * apply H88; reflexivity.
Defined.

(** C8, as stated, fails: on the Sunday the clocks go forward in London
    the date shown for a task scheduled on the Monday of the current week
    is less than 24 hours after today's midnight, and the text is
    [Due today]; and a day name that is not in [daysOfWeek] gives
    [Due today] on a Saturday of its week. *)
Lemma C8_due_today_on_the_weekly_path :
  (canonicalDays vacuumSchedule
   /\ findTaskOccurrences (Some vacuumSchedule) "Vacuum"
      = [Weekly 1 "Monday" 1; Weekly 7 "Monday" 1]
   /\ getCurrentWeekInCycle noon_31_mar = 1
   /\ Wall.getNextScheduledDate london2024 utcHost (Some vacuumSchedule)
        noon_31_mar vacuum_never
      = {| text := "Due today"; overdue := false |})
  /\ (findTaskOccurrences (Some lowercaseSchedule) "Vacuum" = [Weekly 1 "monday" (-1)]
      /\ getNextScheduledDate utcHost (Some lowercaseSchedule) saturday_week1 vacuum_never
         = {| text := "Due today"; overdue := false |}).
Proof.
  split.
  - split; [apply vacuumSchedule_canonical |]. vm_compute. repeat split.
  - vm_compute. repeat split.
Qed.

Lemma C8_weekly_after_today_witness :
  exists nextDate,
    head (Wall.nextOccurrences london2024 monday_week1
            (findTaskOccurrences (Some vacuumSchedule) "Vacuum")) = Some nextDate
    /\ Wall.setHours0 london2024 monday_week1 < nextDate.
Proof.
  destruct (C8_weekly_after_today london2024 utcHost vacuumSchedule monday_week1
              vacuum_never)
    as (_ & nextDate & _ & Hhead & _ & Hlt & _).
  - apply london2024_laws.
  - apply vacuumSchedule_canonical.
  - vm_compute. discriminate.
  - intros f Hin. vm_compute in Hin.
    apply elem_of_cons in Hin as [Hin | Hin]; [discriminate |].
    apply list_elem_of_singleton in Hin. discriminate.
  - exists nextDate. split; [exact Hhead | exact Hlt].
Defined.

(** * Recording a completion on the wall clock *)

Lemma Wall_updatedHistory_lookup zone now0 now1 taskName taskLocation history key e :
  Wall.updatedHistory zone now0 now1 taskName taskLocation history !! key = Some e <->
  (if decide (taskName = key)
   then e = {| Entry.location := taskLocation; Entry.lastCompleted := toISODate now0 |}
   else history !! key = Some e)
  /\ ~ (Date_ofISO (Entry.lastCompleted e) < Wall.addDays zone now1 (- (12 * 7))).
Proof.
  unfold Wall.updatedHistory, pruneHistory; cbv zeta.
  rewrite map_lookup_filter_Some, lookup_insert. simpl.
  destruct (decide (taskName = key)); [| done].
  split; intros [H1 H2]; split; congruence.
Qed.

Lemma Wall_updatedHistory_again zone now0 now1 now0' now1' taskName taskLocation
    taskLocation' (history : gmap string Entry.t) :
  Wall.addDays zone now1 (- (12 * 7)) <= Wall.addDays zone now1' (- (12 * 7)) ->
  Wall.updatedHistory zone now0' now1' taskName taskLocation'
    (Wall.updatedHistory zone now0 now1 taskName taskLocation history)
  = Wall.updatedHistory zone now0' now1' taskName taskLocation' history.
Proof.
  intros Hle. apply map_eq. intros key. apply option_eq. intros e.
  rewrite (Wall_updatedHistory_lookup zone now0' now1' _ _
             (Wall.updatedHistory zone now0 now1 taskName taskLocation history)).
  rewrite (Wall_updatedHistory_lookup zone now0' now1' _ _ history).
  destruct (decide (taskName = key)) as [Heq | Hne]; [done |].
  rewrite Wall_updatedHistory_lookup, decide_False by done.
  split; [tauto |].
  intros [Hin Hkeep]. repeat split; [done | lia | done].
Qed.

Lemma reach_saveHistory host answers history w :
  reach answers (saveHistory host history (reach answers w))
  = saveHistory host history (reach answers w).
Proof.
  unfold saveHistory, reach, with_db, with_localStorage, set_taskHistory.
  destruct (db w) as [fs |] eqn:Hdb; simpl; [destruct answers |]; simpl;
    by rewrite ?Hdb.
Qed.

Section RecordFacts.
Context (zone : Zone) (host : Host).

(** C4, amended: the call reads the clock twice, for the recorded date
    and, after the history has arrived, for the clean-up, whose cut-off is
    the wall clock of that second instant set back 84 calendar days.  On a
    zone whose clock changes are below a day, after a call that could read
    the history, the history written back holds no entry dated more than 84
    days before the recorded date, keeps every other entry dated at most 82
    days before the date of the clean-up (83 days when the zone keeps one
    offset), holds the entry just recorded when those two dates are at most
    82 days apart, and adds nothing else; an entry in between is kept
    exactly when its date, as UTC midnight, is not before the cut-off. *)
Theorem C4_pruning (drift now0 now1 : Z) (readAnswers writeAnswers : bool)
    (taskName taskLocation : string) (w : World) (history : gmap string Entry.t) :
  getTaskHistory host (reach readAnswers w) = Ok history ->
  now0 <= now1 ->
  0 <= drift < MS_PER_DAY ->
  driftBound zone drift ->
  exists w' history',
    recordCompletionAt zone host now0 now1 readAnswers writeAnswers
      taskName taskLocation w = Ok w'
    /\ historyPersisted host w' history'
    /\ (forall key e, history' !! key = Some e ->
          toISODate now0 - Entry.lastCompleted e <= 84)
    /\ (forall key e, key <> taskName -> history !! key = Some e ->
          toISODate now1 - Entry.lastCompleted e <= 82 ->
          history' !! key = Some e)
    /\ (forall key e, key <> taskName -> history !! key = Some e ->
          drift = 0 -> toISODate now1 - Entry.lastCompleted e <= 83 ->
          history' !! key = Some e)
    /\ (toISODate now1 - toISODate now0 <= 82 ->
        history' !! taskName
        = Some {| Entry.location := taskLocation;
                  Entry.lastCompleted := toISODate now0 |})
    /\ (forall key e, key <> taskName -> history' !! key = Some e ->
          history !! key = Some e)
    /\ (forall key e, key <> taskName -> history !! key = Some e ->
          (history' !! key = Some e <->
           Wall.addDays zone now1 (- (12 * 7))
           <= Date_ofISO (Entry.lastCompleted e))).
Proof.
  intros Hget Hle Hdrift Hzone.
  exists (saveHistory host
            (Wall.updatedHistory zone now0 now1 taskName taskLocation history)
            (reach writeAnswers w)),
         (Wall.updatedHistory zone now0 now1 taskName taskLocation history).
  split; [unfold recordCompletionAt; by rewrite Hget |].
  split; [apply saveHistory_persisted |].
  pose proof (Hzone now1 (- (12 * 7) * MS_PER_DAY)) as Hcut.
  fold (Wall.addDays zone now1 (- (12 * 7))) in Hcut.
  set (twelveWeeksAgo := Wall.addDays zone now1 (- (12 * 7))) in *.
  pose proof (Z.div_mod now0 MS_PER_DAY ltac:(discriminate)) as Hdm0.
  pose proof (Z.mod_pos_bound now0 MS_PER_DAY ltac:(reflexivity)) as Hmod0.
  pose proof (Z.div_mod now1 MS_PER_DAY ltac:(discriminate)) as Hdm1.
  pose proof (Z.mod_pos_bound now1 MS_PER_DAY ltac:(reflexivity)) as Hmod1.
  repeat split.
  - intros key e [_ Hkeep]%Wall_updatedHistory_lookup. fold twelveWeeksAgo in Hkeep.
    unfold Date_ofISO, toISODate, MS_PER_DAY in *. lia.
  - intros key e Hne Hin Hage. apply Wall_updatedHistory_lookup.
    rewrite decide_False by done. split; [done |]. fold twelveWeeksAgo.
    unfold Date_ofISO, toISODate, MS_PER_DAY in *. lia.
  - intros key e Hne Hin Hzero Hage. apply Wall_updatedHistory_lookup.
    rewrite decide_False by done. split; [done |]. fold twelveWeeksAgo.
    unfold Date_ofISO, toISODate, MS_PER_DAY in *. lia.
  - intros Hage. apply Wall_updatedHistory_lookup.
    rewrite decide_True by done. split; [done |]. fold twelveWeeksAgo.
    cbn [Entry.lastCompleted]. unfold Date_ofISO, toISODate, MS_PER_DAY in *. lia.
  - intros key e Hne [Hin _]%Wall_updatedHistory_lookup.
    by rewrite decide_False in Hin.
  - intros [_ Hkeep]%Wall_updatedHistory_lookup. fold twelveWeeksAgo in Hkeep. lia.
  - intros Hkeep. apply Wall_updatedHistory_lookup.
    rewrite decide_False by done. split; [done |]. fold twelveWeeksAgo. lia.
Qed.

(** X9: with every request answered, recording a completion of the same
    task again leaves the store as if only the later completion had been
    recorded, provided the cut-off of the later clean-up is not before the
    cut-off of the earlier one. *)
Theorem X9_record_again (now0 now1 now0' now1' : Z)
    (taskName taskLocation taskLocation' : string) (w : World) :
  is_Some (db w) ->
  Wall.addDays zone now1 (- (12 * 7)) <= Wall.addDays zone now1' (- (12 * 7)) ->
  exists w1,
    recordCompletionAt zone host now0 now1 true true taskName taskLocation w = Ok w1
    /\ recordCompletionAt zone host now0' now1' true true taskName taskLocation' w1
       = recordCompletionAt zone host now0' now1' true true taskName taskLocation' w.
Proof.
  intros [fs Hdb] Hle.
  unfold recordCompletionAt, getTaskHistory, saveHistory, reach. rewrite Hdb. simpl.
  eexists. split; [reflexivity |]. simpl.
  unfold with_db, set_taskHistory; simpl.
  by rewrite Wall_updatedHistory_again.
Qed.

(** X10: a completion that was recorded is read back by a later
    [getTaskHistory] whose request to the remote store has the outcome the
    write had (both answered, both failed, or no remote store at all): it
    gives the history just written.  On the local copy this needs the
    codec to read back the text it wrote. *)
Theorem X10_record_then_read (now0 now1 : Z) (readAnswers writeAnswers : bool)
    (taskName taskLocation : string) (w : World) (history : gmap string Entry.t) :
  getTaskHistory host (reach readAnswers w) = Ok history ->
  (remote (reach writeAnswers w) = false ->
   historyReadsBack host
     (Wall.updatedHistory zone now0 now1 taskName taskLocation history)) ->
  exists w',
    recordCompletionAt zone host now0 now1 readAnswers writeAnswers
      taskName taskLocation w = Ok w'
    /\ getTaskHistory host (reach writeAnswers w')
       = Ok (Wall.updatedHistory zone now0 now1 taskName taskLocation history).
Proof.
  intros Hget Hback.
  exists (saveHistory host
            (Wall.updatedHistory zone now0 now1 taskName taskLocation history)
            (reach writeAnswers w)).
  split; [unfold recordCompletionAt; by rewrite Hget |].
  rewrite reach_saveHistory. by apply getTaskHistory_saveHistory.
Qed.

End RecordFacts.

(** C4, as stated, fails: an entry dated exactly 84 days before the date
    recorded is deleted by a call made at noon UTC; and in London, late in
    the evening of 1 April 2024, when the local date is already the next
    day and the clocks have gone forward since January, an entry dated 83
    days before the date recorded is deleted too. *)
Lemma C4_entries_within_84_days_are_pruned :
  (getTaskHistory utcHost (reach true dustWorld) = Ok {[ "Dust" := dust_1_jan ]}
   /\ toISODate noon_25_mar - Entry.lastCompleted dust_1_jan = 84
   /\ exists w' fs' history',
        recordCompletionAt (fixedZone 0) utcHost noon_25_mar noon_25_mar true true
          "Vacuum" "Living Room" dustWorld = Ok w'
        /\ db w' = Some fs'
        /\ taskHistory fs' = Some history'
        /\ history' !! "Dust" = None)
  /\ (getTaskHistory utcHost (reach true dust9World) = Ok {[ "Dust" := dust_9_jan ]}
      /\ toISODate late_1_apr - Entry.lastCompleted dust_9_jan = 83
      /\ exists w' fs' history',
           recordCompletionAt london2024 utcHost late_1_apr late_1_apr true true
             "Vacuum" "Living Room" dust9World = Ok w'
           /\ db w' = Some fs'
           /\ taskHistory fs' = Some history'
           /\ history' !! "Dust" = None).
Proof.
  split.
  - split; [reflexivity |]. split; [reflexivity |].
    eexists _, _, _. split; [reflexivity |]. split; [reflexivity |].
    split; [reflexivity |]. vm_compute. reflexivity.
  - split; [reflexivity |]. split; [reflexivity |].
    eexists _, _, _. split; [reflexivity |]. split; [reflexivity |].
    split; [reflexivity |]. vm_compute. reflexivity.
Qed.

Lemma C4_pruning_witness :
  exists w' history',
    recordCompletionAt london2024 utcHost noon_25_mar (noon_25_mar + 1000) true true
      "Vacuum" "Living Room" dustWorld = Ok w'
    /\ historyPersisted utcHost w' history'
    /\ forall key e, history' !! key = Some e ->
         toISODate noon_25_mar - Entry.lastCompleted e <= 84.
Proof.
  destruct (C4_pruning london2024 utcHost MS_PER_HOUR noon_25_mar (noon_25_mar + 1000)
              true true "Vacuum" "Living Room" dustWorld {[ "Dust" := dust_1_jan ]})
    as (w' & history' & Hrec & Hpers & Hold & _).
  - reflexivity.
  - lia.
  - vm_compute. split; [discriminate | reflexivity].
  - apply london2024_drift.
  - exists w', history'. split; [exact Hrec |]. split; [exact Hpers | exact Hold].
Defined.

Lemma X9_record_again_witness :
  exists w1,
    recordCompletionAt london2024 utcHost monday_week1 monday_week1 true true
      "Dust" "Bedroom" dustWorld = Ok w1
    /\ recordCompletionAt london2024 utcHost noon_25_mar noon_25_mar true true
         "Dust" "Bedroom" w1
       = recordCompletionAt london2024 utcHost noon_25_mar noon_25_mar true true
           "Dust" "Bedroom" dustWorld.
Proof.
  apply (X9_record_again london2024 utcHost monday_week1 monday_week1
           noon_25_mar noon_25_mar "Dust" "Bedroom" "Bedroom" dustWorld).
  - simpl. eexists. reflexivity.
  - vm_compute. discriminate.
Defined.

Lemma X10_record_then_read_witness :
  exists w',
    recordCompletionAt london2024 utcHost noon_25_mar noon_25_mar false true
      "Vacuum" "Living Room" dustWorld = Ok w'
    /\ getTaskHistory utcHost (reach true w')
       = Ok (Wall.updatedHistory london2024 noon_25_mar noon_25_mar
               "Vacuum" "Living Room" ∅).
Proof.
  apply (X10_record_then_read london2024 utcHost noon_25_mar noon_25_mar false true
           "Vacuum" "Living Room" dustWorld ∅).
  - reflexivity.
  - discriminate.
Defined.

(** The cut-off is not monotone in the instant of the clean-up: in London
    it steps back by an hour when the clocks go back, so an entry deleted
    by a clean-up just before may be kept by one just after. *)
Example cut_off_steps_back :
  BST_END - 1 < BST_END
  /\ Wall.addDays london2024 BST_END (- (12 * 7))
     < Wall.addDays london2024 (BST_END - 1) (- (12 * 7)).
Proof. vm_compute. done. Qed.

(** A write that failed on the remote store goes to the local copy: a later
    read the store answers does not see it. *)
Example failed_write_is_not_read_back :
  exists w',
    recordCompletionAt (fixedZone 0) utcHost noon_25_mar noon_25_mar true false
      "Vacuum" "Living Room" dustWorld = Ok w'
    /\ getTaskHistory utcHost (reach true w') = Ok {[ "Dust" := dust_1_jan ]}.
Proof. eexists. split; reflexivity. Qed.
